(** * EdgeFactory: a shallow embedding of [geomagio/edge/EdgeFactory.py]

    The development follows the Python module top-down: the fragments of
    Python, numpy and obspy the factory relies on, the collaborators it
    talks to, the factory's methods, and then the properties of the code
    mapper, the numeric codec, the gap reconciler and the two public
    entry points [get_timeseries] and [put_timeseries]. *)

From Stdlib Require Import ZArith List String Ascii Bool Lia.
From Stdlib Require Import Floats.PrimFloat Floats.SpecFloat Floats.FloatOps
  Floats.FloatAxioms.
Import ListNotations.

Local Open Scope string_scope.
Local Open Scope list_scope.
Local Open Scope Z_scope.

(* ===================================================================== *)
(** ** Python values, exceptions and control flow *)
(* ===================================================================== *)

Module Py.

(** The exceptions the module can let escape. [UnboundLocalError] is what
    Python raises when a local name is read before any assignment ran. *)
Inductive exn : Type :=
| TimeseriesFactoryException (msg : string)
| UnboundLocalError (name : string)
| TypeError (msg : string)
| ZeroDivisionError
| ValueError (msg : string)
| CollaboratorError (msg : string).

Inductive Result (A : Type) : Type :=
| Ok (a : A)
| Raise (e : exn).
Arguments Ok {A} a.
Arguments Raise {A} e.

Definition is_ok {A} (r : Result A) : bool :=
  match r with Ok _ => true | Raise _ => false end.

(** Truthiness of the values that meet Python's [or] in this module. *)
Definition truthy_str (s : string) : bool := negb (String.eqb s "").
Definition truthy_list {A} (l : list A) : bool :=
  match l with [] => false | _ :: _ => true end.

(** [a or b]: [a] when it is truthy, otherwise [b] ([None] is falsy). *)
Definition py_or {A} (truthy : A -> bool) (a b : option A) : option A :=
  match a with
  | Some v => if truthy v then a else b
  | None => b
  end.

(** [a == 'literal'] for a value that is a [str] or [None]. *)
Definition eq_lit (a : option string) (lit : string) : bool :=
  match a with
  | Some s => String.eqb s lit
  | None => false
  end.

(** ['%s' % v] for a value that is a [str] or [None]. *)
Definition fmt_s (v : option string) : string :=
  match v with
  | Some s => s
  | None => "None"
  end.

Definition dquote : string := String (ascii_of_nat 34) EmptyString.
Definition quoted (s : string) : string := (dquote ++ s ++ dquote)%string.

(** [int(a / b)] on exact quantities: the quotient truncated toward
    zero; a zero divisor raises. *)
Definition int_div (a b : Z) : Result Z :=
  if b =? 0 then Raise ZeroDivisionError else Ok (Z.quot a b).

(** [xrange(0, stop, step)] for a positive [step]:
    [0, step, 2*step, ...] while below [stop]. *)
Definition xrange0 (stop step : Z) : list Z :=
  map (fun k => Z.of_nat k * step)
      (seq 0 (Z.to_nat ((stop + step - 1) / step))).

End Py.
Export Py.

(* ===================================================================== *)
(** ** Effects: the calls that leave the factory *)
(* ===================================================================== *)

(** Time stamps ([UTCDateTime]) and durations are counted in microseconds,
    the resolution of [UTCDateTime]. *)
Definition Time := Z.
Definition seconds (s : Z) : Z := s * 1000000.

(** Modelled from the spec: the write transport's
    [buildIdentity(station, channel, location, network)] (the method
    [RawInputClient.create_seedname]; the module [RawInputClient] is
    imported by the factory, not defined in it) returns the wire identity
    made of its four arguments. *)
Record SeedName : Type := mkSeedName {
  sn_station : option string;
  sn_channel : string;
  sn_location : option string;
  sn_network : string
}.

Definition create_seedname (station : option string) (channel : string)
           (location : option string) (network : string) : SeedName :=
  mkSeedName station channel location network.

(** Everything the factory does to the outside world, in call order. *)
Inductive Event : Type :=
| RawInputClient_init (tag : string) (host : option string) (port : option Z)
                      (cwbhost : string) (cwbport : Z)
| ric_send (seedname : SeedName) (nsamp : Z) (data : list Z)
           (starttime : Time) (samplerate : float) (r1 r2 r3 r4 : Z)
| ric_forceout (seedname : SeedName)
| ric_close
| stderr_write (msg : string)
| client_getWaveform (network : string) (station : option string)
                     (location : option string) (channel : string)
                     (starttime endtime : Time).

(** A computation logs the calls it makes and ends normally or with an
    exception; the log keeps what happened before the exception. *)
Definition M (A : Type) : Type := (list Event * Result A)%type.

Definition ret {A} (a : A) : M A := ([], Ok a).
Definition raise {A} (e : exn) : M A := ([], Raise e).
Definition emit (ev : Event) : M unit := ([ev], Ok tt).
Definition lift {A} (r : Result A) : M A := ([], r).

Definition bind {A B} (m : M A) (k : A -> M B) : M B :=
  match m with
  | (l, Ok a) => let '(l', r) := k a in (l ++ l', r)
  | (l, Raise e) => (l, Raise e)
  end.

Definition bindR {A B} (r : Result A) (k : A -> Result B) : Result B :=
  match r with
  | Ok a => k a
  | Raise e => Raise e
  end.

Declare Scope eff_scope.
Delimit Scope eff_scope with eff.
Notation "x <- m ;; k" := (bind m (fun x => k))
  (at level 61, m at next level, right associativity) : eff_scope.
Notation "m ;; k" := (bind m (fun _ => k))
  (at level 61, right associativity) : eff_scope.

(** [for x in xs: state = body(x, state)], stopping at the first raise. *)
Fixpoint for_each {A S} (xs : list A) (body : A -> S -> M S) (s : S) : M S :=
  match xs with
  | [] => ret s
  | x :: xs' => bind (body x s) (for_each xs' body)
  end.

Definition log {A} (m : M A) : list Event := fst m.
Definition result {A} (m : M A) : Result A := snd m.

(* ===================================================================== *)
(** ** numpy: float64 samples and (masked) arrays *)
(* ===================================================================== *)

Module numpy.

(** [float64] is IEEE 754 binary64, the kernel's primitive [float]. *)
Definition nan : float := PrimFloat.nan.

(** An integer sample seen as a [float64] (correctly rounded; exact below
    2^53 in magnitude). *)
Definition float_of_int (z : Z) : float :=
  SF2Prim (binary_normalize prec emax z 0 false).

Definition int64_min : Z := - 2 ^ 63.
Definition int64_max : Z := 2 ^ 63 - 1.

(** The integer part of a finite float, toward zero. *)
Definition trunc (f : float) : option Z :=
  match Prim2SF f with
  | S754_zero _ => Some 0
  | S754_finite s m e =>
      let a := match e with
               | Zneg p => Z.shiftr (Zpos m) (Zpos p)
               | _ => Z.shiftl (Zpos m) e
               end in
      Some (if s then - a else a)
  | S754_infinity _ | S754_nan => None
  end.

(** [x.astype(int)] on one [float64] sample: truncation toward zero; what
    does not fit [int64] (or is not a number) comes out as the smallest
    [int64], as the x86-64 conversion leaves it. *)
Definition astype_int (f : float) : Z :=
  match trunc f with
  | Some z => if (int64_min <=? z) && (z <=? int64_max) then z else int64_min
  | None => int64_min
  end.

(** An array is its values and, for a [MaskedArray], a mask of the same
    length ([true] hides the sample). *)
Record ndarray (A : Type) : Type := mk_ndarray {
  values : list A;
  mask : option (list bool)
}.
Arguments mk_ndarray {A} values mask.
Arguments values {A} n.
Arguments mask {A} n.

Definition array {A} (l : list A) : ndarray A := mk_ndarray l None.
Definition len {A} (a : ndarray A) : Z := Z.of_nat (List.length (values a)).
Definition is_MaskedArray {A} (a : ndarray A) : bool :=
  match mask a with Some _ => true | None => false end.

(** [numpy.divide(a, 1000.00)] on integer samples. *)
Definition divide (a : ndarray Z) (d : float) : ndarray float :=
  mk_ndarray (map (fun x => (float_of_int x / d)%float) (values a)) (mask a).

(** [numpy.multiply(a, 1000.00)]. *)
Definition multiply (a : ndarray float) (d : float) : ndarray float :=
  mk_ndarray (map (fun x => (x * d)%float) (values a)) (mask a).

Definition astype_int_array (a : ndarray float) : ndarray Z :=
  mk_ndarray (map astype_int (values a)) (mask a).

(** [numpy.full(cnt, numpy.nan)]; a negative size is refused. *)
Definition full (cnt : Z) (v : float) : Result (list float) :=
  if cnt <? 0 then Raise (ValueError "negative dimensions are not allowed")
  else Ok (repeat v (Z.to_nat cnt)).

(** [numpy.concatenate([a, b])]: a plain array of the values in order. *)
Definition concatenate {A} (a b : list A) : ndarray A := array (a ++ b).

Definition is_invalid (f : float) : bool := is_nan f || is_infinity f.

(** [ma.masked_invalid(a)]: hides NaN and infinities, on top of what was
    hidden already. *)
Definition masked_invalid (a : ndarray float) : ndarray float :=
  let inv := map is_invalid (values a) in
  match mask a with
  | None => mk_ndarray (values a) (Some inv)
  | Some m =>
      mk_ndarray (values a) (Some (map (fun p : bool * bool => orb (fst p) (snd p))
                              (combine inv m)))
  end.

(** [a.set_fill_value(v); a.filled()]. *)
Definition filled (a : ndarray float) (v : float) : ndarray float :=
  match mask a with
  | None => a
  | Some m =>
      array (map (fun p : float * bool => if snd p then v else fst p)
                 (combine (values a) (m ++ repeat false (List.length (values a)))))
  end.

End numpy.

(* ===================================================================== *)
(** ** obspy: Stats, Trace, Stream *)
(* ===================================================================== *)

Module Stats.
(** The header entries the factory reads or writes. [endttime] is the
    entry [_clean_timeseries] creates; obspy itself never reads it.
    [delta] is the sample spacing. *)
Record t : Type := mk {
  channel : string;
  starttime : Time;
  delta : Z;
  endttime : option Time;
  header : list (string * string)
}.

Definition set_starttime (s : t) (v : Time) : t :=
  mk (channel s) v (delta s) (endttime s) (header s).
Definition set_endttime (s : t) (v : Time) : t :=
  mk (channel s) (starttime s) (delta s) (Some v) (header s).
End Stats.

Module Trace.
Import numpy.

Record t (A : Type) : Type := mk {
  stats : Stats.t;
  data : ndarray A
}.
Arguments mk {A} stats data.
Arguments stats {A} t.
Arguments data {A} t.

(** obspy keeps [stats.npts] equal to [len(trace.data)] and derives
    [stats.endtime] as the time of the last sample. *)
Definition npts {A} (tr : t A) : Z := len (data tr).
Definition endtime {A} (tr : t A) : Time :=
  if npts tr =? 0 then Stats.starttime (stats tr)
  else Stats.starttime (stats tr) + (npts tr - 1) * Stats.delta (stats tr).

Definition set_data {A B} (tr : t A) (d : ndarray B) : t B := mk (stats tr) d.
Definition set_stats {A} (tr : t A) (s : Stats.t) : t A := mk s (data tr).
End Trace.

Definition Stream (A : Type) : Type := list (Trace.t A).

(* ===================================================================== *)
(** ** Collaborators *)
(* ===================================================================== *)

(** What the factory calls but does not define: the waveserver client, the
    metadata attacher, obspy's stream operations, and whether a call on the
    write transport fails. *)
Class Collaborators : Type := {
  getWaveform : string -> option string -> option string -> string ->
                Time -> Time -> Result (Stream Z);
  merge : Stream Z -> Result (Stream Z);
  set_metadata : Stats.t -> option string -> string -> option string ->
                 option string -> Stats.t;
  channel_matches : string -> string -> bool;
  split : Trace.t float -> list (Trace.t float);
  slice : Trace.t float -> Time -> Time -> Trace.t float;
  UTCDateTime_str : Time -> string;
  ric_fault : Event -> option exn
}.

(* ===================================================================== *)
(** ** class EdgeFactory *)
(* ===================================================================== *)

Definition HOURSECONDS : Z := 3600.
Definition DAYMINUTES : Z := 1440.

(** The attributes of a factory instance ([self.observatory], ...). *)
Record EdgeFactory : Type := mkEdgeFactory {
  self_observatory : option string;
  self_channels : option (list string);
  self_type : option string;
  self_interval : option string;
  self_tag : string;
  self_locationCode : option string;
  self_host : option string;
  self_port : option Z;
  self_cwbhost : string;
  self_cwbport : Z
}.

(** [__init__]: the defaults of the keyword arguments and [cwbhost or '']. *)
Definition EdgeFactory_init (host : option string) (port : option Z)
           (observatory : option string) (channels : option (list string))
           (type interval locationCode cwbhost : option string) (cwbport : Z)
           (tag : string) : EdgeFactory :=
  mkEdgeFactory observatory channels type interval tag locationCode host port
                (match py_or truthy_str cwbhost (Some "") with
                 | Some s => s
                 | None => ""
                 end)
                cwbport.

Definition newline : string := String (ascii_of_nat 10) EmptyString.

Section EdgeFactory.
Import numpy.
Context {C : Collaborators}.
Variable self : EdgeFactory.

Local Open Scope eff_scope.

(** A call on the write transport that may fail. *)
Definition ric_call (ev : Event) : M unit :=
  match ric_fault ev with
  | Some e => ([ev], Raise e)
  | None => ([ev], Ok tt)
  end.

(** [Stream.select(channel=...)]. *)
Definition select {A} (timeseries : Stream A) (channel : string) : Stream A :=
  filter (fun tr => channel_matches channel (Stats.channel (Trace.stats tr)))
         timeseries.

(** [for x in v] when [v] may be [None]. *)
Definition iter {A} (v : option (list A)) : M (list A) :=
  match v with
  | Some l => ret l
  | None => raise (TypeError "'NoneType' object is not iterable")
  end.

Fixpoint mapR {A B} (f : A -> Result B) (l : list A) : Result (list B) :=
  match l with
  | [] => Ok []
  | x :: l' => bindR (f x) (fun y => bindR (mapR f l') (fun ys => Ok (y :: ys)))
  end.

(* ------------------------------------------------------------------- *)
(** *** Code mapper *)

Definition _get_edge_network (observatory : option string) (channel : string)
           (type interval : option string) : string := "NT".

Definition _get_edge_station (observatory : option string) (channel : string)
           (type interval : option string) : option string := observatory.

Definition _get_interval_code (interval : option string) : Result string :=
  if eq_lit interval "daily" then Ok "D"
  else if eq_lit interval "hourly" then Ok "H"
  else if eq_lit interval "minute" then Ok "M"
  else if eq_lit interval "second" then Ok "S"
  else Raise (TimeseriesFactoryException
                ("Unexpected interval " ++ quoted (fmt_s interval))%string).

Definition _get_edge_channel (observatory : option string) (channel : string)
           (type interval : option string) : Result string :=
  bindR (_get_interval_code interval) (fun edge_interval_code =>
  if String.eqb channel "D" then Ok (edge_interval_code ++ "VD")%string
  else if String.eqb channel "E" then Ok (edge_interval_code ++ "VE")%string
  else if String.eqb channel "F" then Ok (edge_interval_code ++ "SF")%string
  else if String.eqb channel "H" then Ok (edge_interval_code ++ "VH")%string
  else if String.eqb channel "Z" then Ok (edge_interval_code ++ "VZ")%string
  else Raise (TimeseriesFactoryException
                ("Unexpected channel code " ++ quoted channel)%string)).

Definition _get_edge_location (observatory : option string) (channel : string)
           (type interval : option string) : option string :=
  match self_locationCode self with
  | Some locationCode => Some locationCode
  | None =>
      if eq_lit type "variation" then Some "R0"
      else if eq_lit type "quasi-definitive" then Some "Q0"
      else if eq_lit type "definitive" then Some "D0"
      else None
  end.

(* ------------------------------------------------------------------- *)
(** *** Numeric codec *)

Definition _convert_trace_to_decimal (stream : Stream Z) : Stream float :=
  map (fun trace => Trace.set_data trace (divide (Trace.data trace) 1000)) stream.

Definition _convert_trace_to_int (trace : Trace.t float) : Trace.t Z :=
  let trace := Trace.set_data trace (multiply (Trace.data trace) 1000) in
  Trace.set_data trace (astype_int_array (Trace.data trace)).

Definition _convert_stream_to_masked (timeseries : Stream float)
           (channel : string) : Stream float :=
  map (fun trace =>
         if channel_matches channel (Stats.channel (Trace.stats trace))
         then Trace.set_data trace (masked_invalid (Trace.data trace))
         else trace)
      timeseries.

(* ------------------------------------------------------------------- *)
(** *** Gap reconciler *)

(** The body of the loop of [_clean_timeseries], for one trace. *)
Definition _clean_timeseries_trace (trace : Trace.t float)
           (starttime endtime : Time) : Result (Trace.t float) :=
  let trace_starttime := Stats.starttime (Trace.stats trace) in
  let trace_endtime := Trace.endtime trace in
  bindR
    (if Stats.starttime (Trace.stats trace) >? starttime then
       bindR (int_div (trace_starttime - starttime)
                      (Stats.delta (Trace.stats trace))) (fun cnt =>
       bindR (full cnt nan) (fun pad =>
       let trace :=
         Trace.set_data trace (concatenate pad (values (Trace.data trace))) in
       Ok (Trace.set_stats trace
             (Stats.set_starttime (Trace.stats trace) starttime))))
     else Ok trace)
    (fun trace =>
     if trace_endtime <? endtime then
       bindR (int_div (endtime - trace_endtime)
                      (Stats.delta (Trace.stats trace))) (fun cnt =>
       bindR (full cnt nan) (fun pad =>
       let trace :=
         Trace.set_data trace (concatenate (values (Trace.data trace)) pad) in
       Ok (Trace.set_stats trace
             (Stats.set_endttime (Trace.stats trace) endtime))))
     else Ok trace).

Definition _clean_timeseries (timeseries : Stream float)
           (starttime endtime : Time) : Result (Stream float) :=
  mapR (fun trace => _clean_timeseries_trace trace starttime endtime)
       timeseries.

(* ------------------------------------------------------------------- *)
(** *** Read pipeline *)

Definition _set_metadata (stream : Stream Z) (observatory : option string)
           (channel : string) (type interval : option string) : Stream Z :=
  map (fun trace =>
         Trace.set_stats trace
           (set_metadata (Trace.stats trace) observatory channel type interval))
      stream.

Definition _get_timeseries (starttime endtime : Time)
           (observatory : option string) (channel : string)
           (type interval : option string) : M (Stream Z) :=
  let station := _get_edge_station observatory channel type interval in
  let location := _get_edge_location observatory channel type interval in
  let network := _get_edge_network observatory channel type interval in
  edge_channel <- lift (_get_edge_channel observatory channel type interval) ;;
  emit (client_getWaveform network station location edge_channel
                           starttime endtime) ;;
  data <- lift (getWaveform network station location edge_channel
                            starttime endtime) ;;
  data <- lift (merge data) ;;
  ret (_set_metadata data observatory channel type interval).

Definition _post_process (timeseries : Stream Z) (starttime endtime : Time)
           (channels : list string) : Result (Stream float) :=
  let timeseries := _convert_trace_to_decimal timeseries in
  let timeseries :=
    map (fun trace =>
           if is_MaskedArray (Trace.data trace)
           then Trace.set_data trace (filled (Trace.data trace) nan)
           else trace)
        timeseries in
  _clean_timeseries timeseries starttime endtime.

Definition get_timeseries (starttime endtime : Time)
           (observatory : option string) (channels : option (list string))
           (type interval : option string) : M (Stream float) :=
  let observatory := py_or truthy_str observatory (self_observatory self) in
  let channels := py_or truthy_list channels (self_channels self) in
  let type := py_or truthy_str type (self_type self) in
  let interval := py_or truthy_str interval (self_interval self) in
  if starttime >? endtime then
    raise (TimeseriesFactoryException
             ("Starttime before endtime " ++ quoted (UTCDateTime_str starttime)
              ++ " " ++ quoted (UTCDateTime_str endtime))%string)
  else
    channels <- iter channels ;;
    timeseries <-
      for_each channels
        (fun channel timeseries =>
           data <- _get_timeseries starttime endtime observatory channel
                                   type interval ;;
           ret (timeseries ++ data))
        [] ;;
    lift (_post_process timeseries starttime endtime channels).

(* ------------------------------------------------------------------- *)
(** *** Write pipeline *)

(** The locals of the window loop of [_put_trace] that outlive one
    iteration; [seedname] is unbound until the first iteration ran. *)
Record Locals : Type := mkLocals {
  l_nsamp : Z;
  l_starttime : Time;
  l_location : option string;
  l_seedname : option SeedName
}.

(** [nsamp, timeoffset, samplerate] as the [if]/[elif] on
    [self.interval] binds them; no branch runs for any other value. *)
Definition interval_params : option (Z * Z * float) :=
  if eq_lit (self_interval self) "second" then Some (HOURSECONDS, 1, 1%float)
  else if eq_lit (self_interval self) "minute"
       then Some (DAYMINUTES, 60, (1 / 60)%float)
  else None.

(** One pass of the window loop of [_put_trace], at offset [i]. *)
Definition _put_trace_window (trace : Trace.t float) (station : option string)
           (edge_channel network : string) (totalsamps timeoffset : Z)
           (samplerate : float) (i : Z) (locals : Locals) : M Locals :=
  let nsamp := l_nsamp locals in
  let starttime := l_starttime locals in
  let location :=
    py_or truthy_str (self_locationCode self) (l_location locals) in
  let seedname := create_seedname station edge_channel location network in
  let endsample :=
    if totalsamps - i <? nsamp then totalsamps else i + nsamp in
  let nsamp := endsample - i in
  let endtime := starttime + seconds ((nsamp - 1) * timeoffset) in
  let trace_send := slice trace starttime endtime in
  let trace_send := _convert_trace_to_int trace_send in
  ric_call (ric_send seedname nsamp (values (Trace.data trace_send))
                     starttime samplerate 0 0 0 0) ;;
  ret (mkLocals nsamp (starttime + seconds (nsamp * timeoffset))
                location (Some seedname)).

Definition _put_trace (trace : Trace.t float) (observatory : option string)
           (channel : string) (type interval : option string) : M unit :=
  let station := _get_edge_station observatory channel type interval in
  let location := _get_edge_location observatory channel type interval in
  let network := _get_edge_network observatory channel type interval in
  edge_channel <- lift (_get_edge_channel observatory channel type interval) ;;
  let totalsamps := len (Trace.data trace) in
  let starttime := Stats.starttime (Trace.stats trace) in
  match interval_params with
  | None => raise (UnboundLocalError "nsamp")
  | Some (nsamp, timeoffset, samplerate) =>
      final <-
        for_each (xrange0 totalsamps nsamp)
          (_put_trace_window trace station edge_channel network totalsamps
                             timeoffset samplerate)
          (mkLocals nsamp starttime location None) ;;
      match l_seedname final with
      | None => raise (UnboundLocalError "seedname")
      | Some seedname => ric_call (ric_forceout seedname)
      end
  end.

(** One pass of the channel loop of [put_timeseries]; [timeseries] is
    the caller's stream, masked in place for a channel that is written. *)
Definition put_timeseries_channel (observatory : option string)
           (type interval : option string) (channel : string)
           (timeseries : Stream float) : M (Stream float) :=
  if (List.length (select timeseries channel) =? 0)%nat then
    emit (stderr_write ("Missing channel " ++ channel
                        ++ " for output, continuing " ++ newline)%string) ;;
    ret timeseries
  else
    let timeseries := _convert_stream_to_masked timeseries channel in
    for_each (flat_map split (select timeseries channel))
      (fun trace (_ : unit) =>
         _put_trace trace observatory channel type interval)
      tt ;;
    ret timeseries.

(** [put_timeseries] returns nothing; the stream it hands back here is
    the caller's [timeseries] as the call leaves it. *)
Definition put_timeseries (timeseries : Stream float)
           (observatory : option string) (channels : option (list string))
           (type interval : option string) : M (Stream float) :=
  let observatory := py_or truthy_str observatory (self_observatory self) in
  let channels := py_or truthy_list channels (self_channels self) in
  let type := py_or truthy_str type (self_type self) in
  let interval := py_or truthy_str interval (self_interval self) in
  emit (RawInputClient_init (self_tag self) (self_host self) (self_port self)
                            (self_cwbhost self) (self_cwbport self)) ;;
  channels <- iter channels ;;
  timeseries <-
    for_each channels (put_timeseries_channel observatory type interval)
             timeseries ;;
  emit ric_close ;;
  ret timeseries.

End EdgeFactory.

(* ===================================================================== *)
(** ** Reference collaborators and sample inputs *)
(* ===================================================================== *)

Module Reference.
Import numpy.

(** The maximal runs of visible samples of a masked array, each with the
    index of its first sample. *)
Fixpoint unmasked_runs (vals : list (float * bool)) (idx : Z)
         (cur : option (Z * list float)) : list (Z * list float) :=
  let flush := match cur with
               | Some (i, acc) => [(i, rev acc)]
               | None => []
               end in
  match vals with
  | [] => flush
  | (v, true) :: rest => flush ++ unmasked_runs rest (idx + 1) None
  | (v, false) :: rest =>
      unmasked_runs rest (idx + 1)
        (match cur with
         | Some (i, acc) => Some (i, v :: acc)
         | None => Some (idx, [v])
         end)
  end.

(** [Trace.split()]: an unmasked trace as it is, a masked one as one trace
    per run of visible samples. *)
Definition split_runs (tr : Trace.t float) : list (Trace.t float) :=
  match mask (Trace.data tr) with
  | None => [tr]
  | Some m =>
      map (fun run : Z * list float =>
             Trace.mk (Stats.set_starttime (Trace.stats tr)
                         (Stats.starttime (Trace.stats tr)
                          + fst run * Stats.delta (Trace.stats tr)))
                      (array (snd run)))
          (unmasked_runs (combine (values (Trace.data tr)) m) 0 None)
  end.

(** [Trace.slice(starttime, endtime)]: the samples stamped within the two
    times. *)
Definition slice_between (tr : Trace.t float) (starttime endtime : Time)
  : Trace.t float :=
  let st := Trace.stats tr in
  let vals := values (Trace.data tr) in
  let stamped :=
    combine (map (fun k => Stats.starttime st + Z.of_nat k * Stats.delta st)
                 (seq 0 (List.length vals)))
            vals in
  let kept := filter (fun p : Z * float =>
                        (starttime <=? fst p) && (fst p <=? endtime)) stamped in
  Trace.mk (Stats.set_starttime st
              (match kept with
               | [] => Stats.starttime st
               | p :: _ => fst p
               end))
           (array (map snd kept)).

#[export] Instance collaborators : Collaborators := {|
  getWaveform := fun _ _ _ _ _ _ => Ok [];
  merge := fun s => Ok s;
  set_metadata := fun st _ _ _ _ => st;
  channel_matches := String.eqb;
  split := split_runs;
  slice := slice_between;
  UTCDateTime_str := fun _ => "UTCDateTime";
  ric_fault := fun _ => None
|}.

Definition factory (interval locationCode : option string) : EdgeFactory :=
  EdgeFactory_init None None (Some "BOU") (Some ["H"]) (Some "variation")
                   interval locationCode None 0 "GeomagAlg".

Definition trace_of (channel : string) (starttime : Time) (delta : Z)
           (samples : list float) : Trace.t float :=
  Trace.mk (Stats.mk channel starttime delta None []) (array samples).

End Reference.

(* ===================================================================== *)
(** ** Observations on logs, and the specification's formulas *)
(* ===================================================================== *)

Definition is_init (ev : Event) : bool :=
  match ev with RawInputClient_init _ _ _ _ _ => true | _ => false end.
Definition is_send (ev : Event) : bool :=
  match ev with ric_send _ _ _ _ _ _ _ _ _ => true | _ => false end.
Definition is_forceout (ev : Event) : bool :=
  match ev with ric_forceout _ => true | _ => false end.
Definition is_close (ev : Event) : bool :=
  match ev with ric_close => true | _ => false end.
Definition is_getWaveform (ev : Event) : bool :=
  match ev with client_getWaveform _ _ _ _ _ _ => true | _ => false end.

Definition count (p : Event -> bool) (l : list Event) : nat :=
  List.length (filter p l).

(** Events of the write transport that carry samples or flush them. *)
Definition on_the_wire (ev : Event) : Prop :=
  is_send ev = true \/ is_forceout ev = true.

(** Events that neither open nor close the write session. *)
Definition in_session (ev : Event) : Prop :=
  is_init ev = false /\ is_close ev = false.

(** The line [put_timeseries] writes to stderr for an absent channel. *)
Definition missing_channel_warning (channel : string) : Event :=
  stderr_write ("Missing channel " ++ channel
                ++ " for output, continuing " ++ newline)%string.

(** The error of [_get_interval_code] for an interval it does not know. *)
Definition unexpected_interval (interval : option string) : exn :=
  TimeseriesFactoryException
    ("Unexpected interval " ++ quoted (fmt_s interval))%string.

(** Events that put no samples on the wire and close nothing. *)
Definition silent (ev : Event) : Prop :=
  is_send ev = false /\ is_forceout ev = false /\ is_close ev = false.


(** The location code each [send] and [forceout] of a log carries. *)
Definition wire_locations (l : list Event) : list (option string) :=
  flat_map (fun ev => match ev with
                      | ric_send seedname _ _ _ _ _ _ _ _ => [sn_location seedname]
                      | ric_forceout seedname => [sn_location seedname]
                      | _ => []
                      end) l.




(** The gap reconciler's range test: the trace starts no later than
    [starttime] and ends no earlier than [endtime]. *)
Definition covers {A} (trace : Trace.t A) (starttime endtime : Time) : Prop :=
  Stats.starttime (Trace.stats trace) <= starttime
  /\ endtime <= Trace.endtime trace.

(** One integer sample through the codec: decoded as [_convert_trace_to_decimal]
    does, then encoded as [_convert_trace_to_int] does. *)
Definition decode_sample (x : Z) : float := (numpy.float_of_int x / 1000)%float.
Definition encode_sample (v : float) : Z := numpy.astype_int (v * 1000)%float.

(** The binary64 constant [1000.0]: mantissa [1000 * 2^43], exponent [-43]. *)
Definition m1000 : positive := 8796093022208000.
Definition F1000 : spec_float := S754_finite false m1000 (-43).

(** [P] on every integer of [[lo, lo + n)], by halving. *)
Fixpoint check_range (P : Z -> bool) (lo : Z) (n : positive) : bool :=
  match n with
  | xH => P lo
  | xO p => check_range P lo p && check_range P (lo + Zpos p) p
  | xI p => P lo && check_range P (lo + 1) p && check_range P (lo + 1 + Zpos p) p
  end.

(** The wire identity each [send] and [forceout] of a log carries. *)
Definition wire_seednames (l : list Event) : list SeedName :=
  flat_map (fun ev => match ev with
                      | ric_send seedname _ _ _ _ _ _ _ _ => [seedname]
                      | ric_forceout seedname => [seedname]
                      | _ => []
                      end) l.

Definition is_stderr (ev : Event) : bool :=
  match ev with stderr_write _ => true | _ => false end.


(** The read-transport queries of a log, in order: channel code and range. *)
Definition queries (l : list Event)
  : list (string * option string * option string * string * Time * Time) :=
  flat_map (fun ev => match ev with
                      | client_getWaveform network station location channel
                                           starttime endtime =>
                          [(network, station, location, channel,
                            starttime, endtime)]
                      | _ => []
                      end) l.

(** The query [get_timeseries] owes a channel: the channel has a code, and
    the query carries network NT, the observatory as station, the location
    code, the channel code and the requested range. *)
Definition asked (self : EdgeFactory) (starttime endtime : Time)
           (observatory type interval : option string) (channel : string)
           (q : string * option string * option string * string * Time * Time)
  : Prop :=
  exists edge_channel,
    _get_edge_channel observatory channel type interval = Ok edge_channel
    /\ q = ("NT", observatory,
            _get_edge_location self observatory channel type interval,
            edge_channel, starttime, endtime).

(** A computation stops at the first failure of the write transport: a
    [send] or [forceout] the transport fails is the last call of the log,
    and its error is the outcome. *)
Definition stops_at_fault {C : Collaborators} {A} (m : M A) : Prop :=
  forall (before after : list Event) (ev : Event) (e : exn),
    log m = before ++ ev :: after ->
    is_send ev || is_forceout ev = true ->
    ric_fault ev = Some e ->
    after = [] /\ result m = Raise e.

(** The reference collaborators with a write transport that fails every
    [send]. *)
Definition failing_transport : Collaborators := {|
  getWaveform := fun _ _ _ _ _ _ => Ok [];
  merge := fun s => Ok s;
  set_metadata := fun st _ _ _ _ => st;
  channel_matches := String.eqb;
  split := Reference.split_runs;
  slice := Reference.slice_between;
  UTCDateTime_str := fun _ => "UTCDateTime";
  ric_fault := fun ev => if is_send ev
                         then Some (CollaboratorError "connection lost")
                         else None
|}.

(* ===================================================================== *)
(** ** Code mapper: properties *)
(* ===================================================================== *)

Lemma _get_interval_code_valid (interval : option string) :
  In interval [Some "daily"; Some "hourly"; Some "minute"; Some "second"] ->
  exists c : ascii,
    _get_interval_code interval = Ok (String c EmptyString)
    /\ In (interval, c) [(Some "daily", "D"%char); (Some "hourly", "H"%char);
                         (Some "minute", "M"%char); (Some "second", "S"%char)].
Proof.
  simpl. intros [<- | [<- | [<- | [<- | []]]]];
    eexists; (split; [reflexivity | simpl; tauto]).
Qed.

(** An interval outside the four names has no code. *)
Lemma _get_interval_code_invalid (interval : option string) :
  ~ In interval [Some "daily"; Some "hourly"; Some "minute"; Some "second"] ->
  _get_interval_code interval =
    Raise (TimeseriesFactoryException
             ("Unexpected interval " ++ quoted (fmt_s interval))%string).
Proof.
  intros H. unfold _get_interval_code.
  destruct interval as [s |]; simpl; [| reflexivity].
  repeat match goal with
  | |- context [String.eqb s ?lit] =>
      destruct (String.eqb_spec s lit) as [-> | _];
      [exfalso; apply H; simpl; tauto |]
  end.
  reflexivity.
Qed.

(** C6. For every type value, valid or not: with a configured override
    [_get_edge_location] returns the override; with no override it maps
    variation to R0, quasi-definitive to Q0, definitive to D0, and any other
    type to the unset location [None]. The function is total: no type makes
    it raise. *)
Theorem C6_location_code :
  forall (self : EdgeFactory) (observatory : option string) (channel : string)
         (type interval : option string),
    (forall override, self_locationCode self = Some override ->
       _get_edge_location self observatory channel type interval = Some override)
    /\ (self_locationCode self = None ->
        (type = Some "variation" ->
         _get_edge_location self observatory channel type interval = Some "R0")
        /\ (type = Some "quasi-definitive" ->
            _get_edge_location self observatory channel type interval = Some "Q0")
        /\ (type = Some "definitive" ->
            _get_edge_location self observatory channel type interval = Some "D0")
        /\ (~ In type [Some "variation"; Some "quasi-definitive"; Some "definitive"] ->
            _get_edge_location self observatory channel type interval = None)).
Proof.
  intros self observatory channel type interval.
  unfold _get_edge_location. split.
  - intros override ->. reflexivity.
  - intros ->. repeat split.
    + intros ->. reflexivity.
    + intros ->. reflexivity.
    + intros ->. reflexivity.
    + intros H. destruct type as [s |]; simpl; [| reflexivity].
      repeat match goal with
      | |- context [String.eqb s ?lit] =>
          destruct (String.eqb_spec s lit) as [-> | _];
          [exfalso; apply H; simpl; tauto |]
      end.
      reflexivity.
Qed.

Lemma C6_location_code_witness :
  _get_edge_location (Reference.factory (Some "minute") (Some "XX"))
                     (Some "BOU") "H" (Some "no-such-type") (Some "minute")
    = Some "XX"
  /\ _get_edge_location (Reference.factory (Some "minute") None)
                        (Some "BOU") "H" (Some "definitive") (Some "minute")
     = Some "D0"
  /\ _get_edge_location (Reference.factory (Some "minute") None)
                        (Some "BOU") "H" (Some "no-such-type") (Some "minute")
     = None.
Proof.
  split; [| split].
  - apply (proj1 (C6_location_code (Reference.factory (Some "minute") (Some "XX"))
                    (Some "BOU") "H" (Some "no-such-type") (Some "minute"))).
    reflexivity.
  - apply (proj2 (C6_location_code (Reference.factory (Some "minute") None)
                    (Some "BOU") "H" (Some "definitive") (Some "minute")));
      reflexivity.
  - apply (proj2 (C6_location_code (Reference.factory (Some "minute") None)
                    (Some "BOU") "H" (Some "no-such-type") (Some "minute")));
      [reflexivity |].
    simpl. intros [H | [H | [H | []]]]; discriminate H.
Defined.

(** C7. For every channel in {D, E, F, H, Z} and every interval in {daily,
    hourly, minute, second}, [_get_edge_channel] returns the interval code
    followed by the channel's fixed suffix (D: VD, E: VE, F: SF, H: VH,
    Z: VZ): a string of three characters whose first character is the
    interval code. For a channel outside the set it raises
    [TimeseriesFactoryException] (unexpected channel code). *)
Theorem C7_channel_code :
  forall (observatory : option string) (channel : string)
         (type interval : option string),
    In interval [Some "daily"; Some "hourly"; Some "minute"; Some "second"] ->
    exists c : ascii,
      _get_interval_code interval = Ok (String c EmptyString)
      /\ (forall suffix,
            In (channel, suffix)
               [("D", "VD"); ("E", "VE"); ("F", "SF"); ("H", "VH"); ("Z", "VZ")] ->
            _get_edge_channel observatory channel type interval
              = Ok (String c EmptyString ++ suffix)%string
            /\ String.length (String c EmptyString ++ suffix)%string = 3%nat
            /\ String.get 0 (String c EmptyString ++ suffix)%string = Some c)
      /\ (~ In channel ["D"; "E"; "F"; "H"; "Z"] ->
          _get_edge_channel observatory channel type interval
            = Raise (TimeseriesFactoryException
                       ("Unexpected channel code " ++ quoted channel)%string)).
Proof.
  intros observatory channel type interval Hi.
  destruct (_get_interval_code_valid interval Hi) as [c [Hc _]].
  exists c. split; [exact Hc |]. unfold _get_edge_channel. rewrite Hc. simpl.
  split.
  - intros suffix Hs. simpl in Hs.
    destruct Hs as [H | [H | [H | [H | [H | []]]]]];
      inversion H; subst; simpl; repeat split; reflexivity.
  - intros Hn.
    repeat match goal with
    | |- context [String.eqb channel ?lit] =>
        destruct (String.eqb_spec channel lit) as [-> | _];
        [exfalso; apply Hn; simpl; tauto |]
    end.
    reflexivity.
Qed.

Lemma C7_channel_code_witness :
  _get_edge_channel (Some "BOU") "H" (Some "definitive") (Some "minute") = Ok "MVH"
  /\ _get_edge_channel (Some "BOU") "X" (Some "definitive") (Some "minute")
     = Raise (TimeseriesFactoryException
                ("Unexpected channel code " ++ quoted "X")%string).
Proof.
  destruct (C7_channel_code (Some "BOU") "H" (Some "definitive") (Some "minute"))
    as [c [Hc [Hin _]]]; [simpl; tauto |].
  destruct (C7_channel_code (Some "BOU") "X" (Some "definitive") (Some "minute"))
    as [c' [_ [_ Hout]]]; [simpl; tauto |].
  split.
  - injection Hc as <-. apply (Hin "VH"). simpl; tauto.
  - apply Hout. simpl. intros [H | [H | [H | [H | [H | []]]]]]; discriminate H.
Defined.

(* ===================================================================== *)
(** ** Read entry point and gap reconciler: properties *)
(* ===================================================================== *)

(** C4. For every call of [get_timeseries] with [starttime > endtime], the
    call raises [TimeseriesFactoryException] (the range error) with an
    empty log: no query reached the read transport. *)
Theorem C4_get_invalid_range :
  forall (C : Collaborators) (self : EdgeFactory) (starttime endtime : Time)
         (observatory : option string) (channels : option (list string))
         (type interval : option string),
    starttime > endtime ->
    get_timeseries self starttime endtime observatory channels type interval
      = ([], Raise (TimeseriesFactoryException
                      ("Starttime before endtime "
                       ++ quoted (UTCDateTime_str starttime) ++ " "
                       ++ quoted (UTCDateTime_str endtime))%string))
    /\ count is_getWaveform
         (log (get_timeseries self starttime endtime observatory channels
                              type interval)) = 0%nat.
Proof.
  intros C self starttime endtime observatory channels type interval Hgt.
  unfold get_timeseries.
  replace (starttime >? endtime) with true by (symmetry; apply Z.gtb_lt; lia).
  split; reflexivity.
Qed.

Lemma C4_get_invalid_range_witness :
  log (get_timeseries (C := Reference.collaborators)
         (Reference.factory (Some "minute") None)
         (seconds 120) (seconds 60) None (Some ["H"; "E"]) None None)
    = []
  /\ is_ok (result (get_timeseries (C := Reference.collaborators)
                      (Reference.factory (Some "minute") None)
                      (seconds 120) (seconds 60) None (Some ["H"; "E"]) None None))
     = false.
Proof.
  destruct (C4_get_invalid_range Reference.collaborators
              (Reference.factory (Some "minute") None)
              (seconds 120) (seconds 60) None (Some ["H"; "E"]) None None)
    as [H _]; [reflexivity |].
  rewrite H. split; reflexivity.
Defined.

Lemma _clean_timeseries_trace_covered (trace : Trace.t float)
      (starttime endtime : Time) :
  covers trace starttime endtime ->
  _clean_timeseries_trace trace starttime endtime = Ok trace.
Proof.
  intros [Hs He]. unfold _clean_timeseries_trace.
  replace (Stats.starttime (Trace.stats trace) >? starttime) with false
    by (symmetry; rewrite Z.gtb_ltb; apply Z.ltb_ge; lia).
  simpl.
  replace (Trace.endtime trace <? endtime) with false
    by (symmetry; apply Z.ltb_ge; lia).
  reflexivity.
Qed.

(** C9. For every trace that already covers the requested range (it starts
    no later than [starttime] and ends no earlier than [endtime]), the gap
    reconciler returns the trace as it was: same samples, same count, same
    start and end time; so [_clean_timeseries] leaves a stream of such
    traces unchanged. *)
Theorem C9_clean_covering_noop :
  forall (timeseries : Stream float) (starttime endtime : Time),
    Forall (fun trace => covers trace starttime endtime) timeseries ->
    _clean_timeseries timeseries starttime endtime = Ok timeseries
    /\ Forall (fun trace =>
                 _clean_timeseries_trace trace starttime endtime = Ok trace)
              timeseries.
Proof.
  intros timeseries starttime endtime Hall. split.
  - unfold _clean_timeseries.
    induction Hall as [| trace rest Hc _ IH]; simpl; [reflexivity |].
    rewrite (_clean_timeseries_trace_covered _ _ _ Hc). simpl.
    rewrite IH. reflexivity.
  - induction Hall as [| trace rest Hc _ IH]; constructor; [| exact IH].
    apply _clean_timeseries_trace_covered, Hc.
Qed.

Lemma C9_clean_covering_noop_witness :
  _clean_timeseries
    [Reference.trace_of "H" (seconds 0) (seconds 60) [1%float; 2%float; 3%float]]
    (seconds 60) (seconds 120)
  = Ok [Reference.trace_of "H" (seconds 0) (seconds 60)
          [1%float; 2%float; 3%float]].
Proof.
  apply (C9_clean_covering_noop
           [Reference.trace_of "H" (seconds 0) (seconds 60)
              [1%float; 2%float; 3%float]]
           (seconds 60) (seconds 120)).
  constructor; [| constructor].
  split; vm_compute; discriminate.
Defined.







(* ===================================================================== *)
(** ** Logs of computations *)
(* ===================================================================== *)

Lemma bind_Ok {A B} (l : list Event) (a : A) (k : A -> M B) :
  bind (l, Ok a) k = (l ++ log (k a), result (k a)).
Proof. unfold bind, log, result. destruct (k a); reflexivity. Qed.

Lemma log_bind {A B} (m : M A) (k : A -> M B) :
  log (bind m k)
  = log m ++ match result m with
             | Ok a => log (k a)
             | Raise _ => []
             end.
Proof.
  destruct m as [l [a | e]].
  - rewrite bind_Ok. reflexivity.
  - simpl. rewrite app_nil_r. reflexivity.
Qed.

Lemma result_bind {A B} (m : M A) (k : A -> M B) :
  result (bind m k)
  = match result m with
    | Ok a => result (k a)
    | Raise e => Raise e
    end.
Proof.
  destruct m as [l [a | e]].
  - rewrite bind_Ok. reflexivity.
  - reflexivity.
Qed.

Lemma bind_log_Forall {A B} (P : Event -> Prop) (m : M A) (k : A -> M B) :
  Forall P (log m) -> (forall a, Forall P (log (k a))) ->
  Forall P (log (bind m k)).
Proof.
  intros Hm Hk. rewrite log_bind. apply Forall_app. split; [exact Hm |].
  destruct (result m); [apply Hk | constructor].
Qed.

Lemma for_each_log_Forall {A S} (P : Event -> Prop) (body : A -> S -> M S) :
  (forall x s, Forall P (log (body x s))) ->
  forall xs s, Forall P (log (for_each xs body s)).
Proof.
  intros Hbody xs. induction xs as [| x xs IH]; intros s; simpl.
  - constructor.
  - apply bind_log_Forall; [apply Hbody | exact IH].
Qed.

Lemma count_app (p : Event -> bool) (l1 l2 : list Event) :
  count p (l1 ++ l2) = (count p l1 + count p l2)%nat.
Proof. unfold count. rewrite filter_app, length_app. reflexivity. Qed.

Lemma count_cons (p : Event -> bool) (ev : Event) (l : list Event) :
  count p (ev :: l) = ((if p ev then 1 else 0) + count p l)%nat.
Proof. unfold count. simpl. destruct (p ev); reflexivity. Qed.

Lemma count_none (p : Event -> bool) (l : list Event) :
  Forall (fun ev => p ev = false) l -> count p l = 0%nat.
Proof.
  unfold count. induction 1 as [| ev l Hev _ IH]; simpl; [reflexivity |].
  rewrite Hev. exact IH.
Qed.

(* ===================================================================== *)
(** ** Write pipeline: what a trace and a call put on the wire *)
(* ===================================================================== *)

Section WritePipeline.
Context {C : Collaborators}.
Variable self : EdgeFactory.

Lemma ric_call_log (ev : Event) : log (ric_call ev) = [ev].
Proof. unfold ric_call. destruct (ric_fault ev); reflexivity. Qed.

Lemma _put_trace_window_log trace station edge_channel network totalsamps
      timeoffset samplerate i locals :
  Forall on_the_wire
         (log (_put_trace_window self trace station edge_channel network
                                 totalsamps timeoffset samplerate i locals)).
Proof.
  unfold _put_trace_window. apply bind_log_Forall.
  - rewrite ric_call_log. constructor; [left; reflexivity | constructor].
  - intros _. constructor.
Qed.

Lemma _put_trace_log trace observatory channel type interval :
  Forall on_the_wire
         (log (_put_trace self trace observatory channel type interval)).
Proof.
  unfold _put_trace. apply bind_log_Forall; [constructor |].
  intros edge_channel.
  destruct (interval_params self) as [[[nsamp timeoffset] samplerate] |];
    [| constructor].
  apply bind_log_Forall.
  - apply for_each_log_Forall. intros i locals. apply _put_trace_window_log.
  - intros final. destruct (l_seedname final) as [seedname |]; [| constructor].
    rewrite ric_call_log. constructor; [right; reflexivity | constructor].
Qed.

Lemma on_the_wire_in_session (ev : Event) : on_the_wire ev -> in_session ev.
Proof. destruct ev; intros [H | H]; try discriminate H; split; reflexivity. Qed.

Lemma put_timeseries_channel_log observatory type interval channel timeseries :
  Forall in_session
         (log (put_timeseries_channel self observatory type interval
                                      channel timeseries)).
Proof.
  unfold put_timeseries_channel.
  destruct (List.length (select timeseries channel) =? 0)%nat.
  - repeat constructor.
  - apply bind_log_Forall; [| intros _; constructor].
    apply for_each_log_Forall. intros trace _.
    eapply Forall_impl; [| apply _put_trace_log].
    apply on_the_wire_in_session.
Qed.

(** The shape of every call of [put_timeseries]: the session is opened,
    the channel loop runs, and the session is closed if and only if the
    loop did not raise. *)
Lemma put_timeseries_shape timeseries observatory channels type interval :
  exists (L : list Event) (r : Result (Stream float)),
    put_timeseries self timeseries observatory channels type interval
    = (RawInputClient_init (self_tag self) (self_host self) (self_port self)
                           (self_cwbhost self) (self_cwbport self)
       :: L ++ (if is_ok r then [ric_close] else []), r)
    /\ Forall in_session L.
Proof.
  unfold put_timeseries.
  destruct (py_or truthy_list channels (self_channels self)) as [l |].
  - unfold iter, emit. rewrite bind_Ok. unfold log, result; simpl fst; simpl snd.
    match goal with
    | |- context [for_each l ?body timeseries] =>
        set (m := for_each l body timeseries)
    end.
    assert (Hm : Forall in_session (log m)).
    { apply for_each_log_Forall. intros. apply put_timeseries_channel_log. }
    destruct m as [L [ts | e]].
    + exists L, (Ok ts). split; [| exact Hm]. reflexivity.
    + exists L, (Raise e). split; [| exact Hm]. simpl.
      rewrite app_nil_r. reflexivity.
  - exists [], (Raise (TypeError "'NoneType' object is not iterable")).
    split; [reflexivity | constructor].
Qed.

End WritePipeline.

Lemma for_each_result_Raise {A S} (Q : exn -> Prop) (body : A -> S -> M S) :
  (forall x s e, result (body x s) = Raise e -> Q e) ->
  forall xs s e, result (for_each xs body s) = Raise e -> Q e.
Proof.
  intros Hbody xs. induction xs as [| x xs IH]; intros s e; simpl.
  - discriminate.
  - rewrite result_bind. destruct (result (body x s)) as [s' | e'] eqn:E.
    + apply IH.
    + intros H. injection H as <-. eapply Hbody, E.
Qed.

Section SessionLifecycle.
Context {C : Collaborators}.
Variable self : EdgeFactory.

(** A channel the stream has no trace for costs one warning. *)
Lemma put_timeseries_channels_absent observatory type interval timeseries :
  forall channels : list string,
    (forall channel, In channel channels -> select timeseries channel = []) ->
    for_each channels (put_timeseries_channel self observatory type interval)
             timeseries
    = (map missing_channel_warning channels, Ok timeseries).
Proof.
  induction channels as [| channel channels IH]; intros Habs; simpl.
  - reflexivity.
  - unfold put_timeseries_channel at 1.
    rewrite (Habs channel) by (left; reflexivity). simpl.
    rewrite IH by (intros; apply Habs; right; assumption).
    reflexivity.
Qed.

(** With an interval [_get_interval_code] does not know, a trace is
    refused before anything is sent. *)
Lemma _put_trace_unknown_interval trace observatory channel type interval :
  ~ In interval [Some "daily"; Some "hourly"; Some "minute"; Some "second"] ->
  _put_trace self trace observatory channel type interval
  = ([], Raise (unexpected_interval interval)).
Proof.
  intros H. unfold _put_trace, _get_edge_channel.
  rewrite (_get_interval_code_invalid _ H). reflexivity.
Qed.

Lemma put_timeseries_channel_unknown_interval observatory type interval
      channel timeseries :
  ~ In interval [Some "daily"; Some "hourly"; Some "minute"; Some "second"] ->
  Forall silent (log (put_timeseries_channel self observatory type interval
                                             channel timeseries))
  /\ (forall e,
        result (put_timeseries_channel self observatory type interval
                                       channel timeseries) = Raise e ->
        e = unexpected_interval interval).
Proof.
  intros H. unfold put_timeseries_channel.
  destruct (List.length (select timeseries channel) =? 0)%nat.
  - split; [repeat constructor | discriminate].
  - destruct (flat_map split
                (select (_convert_stream_to_masked timeseries channel) channel))
      as [| trace traces]; simpl.
    + split; [constructor | discriminate].
    + rewrite (_put_trace_unknown_interval _ _ _ _ _ H). simpl.
      split; [constructor |]. intros e E. injection E as <-. reflexivity.
Qed.

End SessionLifecycle.

(** C1, as the source has it. Every call of [put_timeseries] constructs the
    [RawInputClient] first: the session is open before the interval is
    looked at, whatever the interval is. When the resolved interval is none
    of daily, hourly, minute, second, nothing is sent or flushed, and the
    call either completes (no requested channel had a trace to write) or
    raises with the session left open: [TimeseriesFactoryException]
    (unexpected interval) at the first trace, or [TypeError] when there is
    no channel list at all. *)
Theorem C1_put_opens_session_before_interval_check :
  forall (C : Collaborators) (self : EdgeFactory) (timeseries : Stream float)
         (observatory : option string) (channels : option (list string))
         (type interval : option string),
    (exists rest,
        log (put_timeseries self timeseries observatory channels type interval)
        = RawInputClient_init (self_tag self) (self_host self) (self_port self)
                              (self_cwbhost self) (self_cwbport self) :: rest)
    /\ (~ In (py_or truthy_str interval (self_interval self))
             [Some "daily"; Some "hourly"; Some "minute"; Some "second"] ->
        count is_send
          (log (put_timeseries self timeseries observatory channels type interval))
        = 0%nat
        /\ count is_forceout
             (log (put_timeseries self timeseries observatory channels type
                                  interval))
           = 0%nat
        /\ (forall e,
              result (put_timeseries self timeseries observatory channels type
                                     interval) = Raise e ->
              count is_close
                (log (put_timeseries self timeseries observatory channels type
                                     interval)) = 0%nat
              /\ (e = unexpected_interval
                        (py_or truthy_str interval (self_interval self))
                  \/ e = TypeError "'NoneType' object is not iterable"))).
Proof.
  intros C self timeseries observatory channels type interval.
  split.
  - destruct (put_timeseries_shape self timeseries observatory channels type
                                   interval) as (L & r & E & _).
    rewrite E. eexists. reflexivity.
  - intros Hbad. unfold put_timeseries.
    destruct (py_or truthy_list channels (self_channels self)) as [l |].
    + unfold iter, emit. rewrite bind_Ok. unfold log, result; simpl fst; simpl snd.
      match goal with
      | |- context [for_each l ?body timeseries] =>
          set (m := for_each l body timeseries)
      end.
      assert (Hlog : Forall silent (log m)).
      { apply for_each_log_Forall. intros channel ts.
        apply put_timeseries_channel_unknown_interval, Hbad. }
      assert (Hres : forall e, result m = Raise e ->
                e = unexpected_interval
                      (py_or truthy_str interval (self_interval self))).
      { intros e. apply (for_each_result_Raise
                           (fun e => e = unexpected_interval _)).
        intros channel ts e'.
        apply put_timeseries_channel_unknown_interval, Hbad. }
      destruct m as [L [ts | e0]]; unfold log, result in Hlog, Hres; simpl in *.
      * split; [| split; [| discriminate]].
        -- rewrite count_cons, count_app, count_none; [reflexivity |].
           eapply Forall_impl; [| exact Hlog]. intros ev Hs; apply Hs.
        -- rewrite count_cons, count_app, count_none; [reflexivity |].
           eapply Forall_impl; [| exact Hlog]. intros ev Hs; apply Hs.
      * split; [| split].
        -- rewrite count_cons, count_none; [reflexivity |].
           eapply Forall_impl; [| exact Hlog]. intros ev Hs; apply Hs.
        -- rewrite count_cons, count_none; [reflexivity |].
           eapply Forall_impl; [| exact Hlog]. intros ev Hs; apply Hs.
        -- intros e E. injection E as <-. split; [| left; apply Hres; reflexivity].
           rewrite count_cons, count_none; [reflexivity |].
           eapply Forall_impl; [| exact Hlog]. intros ev Hs; apply Hs.
    + simpl. split; [reflexivity | split; [reflexivity |]].
      intros e E. injection E as <-. split; [reflexivity | right; reflexivity].
Qed.

Lemma C1_put_opens_session_before_interval_check_witness :
  count is_send
    (log (put_timeseries (C := Reference.collaborators)
            (Reference.factory (Some "second") None)
            [Reference.trace_of "H" (seconds 0) (seconds 1) [1%float; 2%float]]
            None None None (Some "weekly")))
  = 0%nat.
Proof.
  apply (C1_put_opens_session_before_interval_check Reference.collaborators
           (Reference.factory (Some "second") None)
           [Reference.trace_of "H" (seconds 0) (seconds 1) [1%float; 2%float]]
           None None None (Some "weekly")).
  simpl. intros [H | [H | [H | [H | []]]]]; discriminate H.
Defined.

(** C1 fails as stated. With the interval hourly and a requested channel
    the stream lacks, the call raises nothing, and the session was opened
    (and closed). With an interval the code mapper rejects and a trace to
    write, the call does raise, but only after the session was opened. *)
Lemma C1_counterexample :
  put_timeseries (C := Reference.collaborators)
    (Reference.factory (Some "second") None) [] None (Some ["H"]) None
    (Some "hourly")
  = ([RawInputClient_init "GeomagAlg" None None "" 0;
      missing_channel_warning "H"; ric_close], Ok [])
  /\ put_timeseries (C := Reference.collaborators)
       (Reference.factory (Some "second") None)
       [Reference.trace_of "H" (seconds 0) (seconds 1) [1%float; 2%float]]
       None (Some ["H"]) None (Some "weekly")
     = ([RawInputClient_init "GeomagAlg" None None "" 0],
        Raise (unexpected_interval (Some "weekly"))).
Proof. split; reflexivity. Qed.

(** C2, as the source has it. Every call of [put_timeseries] opens the
    write session exactly once, as its first action. When the call returns
    normally the session is closed exactly once, as its last action; that
    includes the calls in which requested channels are absent from the input:
    each costs one warning and the call still returns normally. When the
    call raises (an error while a channel is processed, mid-loop) the
    session is not closed: the log holds no [close]. *)
Theorem C2_put_closes_session_only_on_normal_return :
  forall (C : Collaborators) (self : EdgeFactory) (timeseries : Stream float)
         (observatory : option string) (channels : option (list string))
         (type interval : option string),
    count is_init
      (log (put_timeseries self timeseries observatory channels type interval))
    = 1%nat
    /\ (is_ok (result (put_timeseries self timeseries observatory channels type
                                      interval)) = true ->
        count is_close
          (log (put_timeseries self timeseries observatory channels type interval))
        = 1%nat
        /\ exists L,
            log (put_timeseries self timeseries observatory channels type interval)
            = L ++ [ric_close])
    /\ (is_ok (result (put_timeseries self timeseries observatory channels type
                                      interval)) = false ->
        count is_close
          (log (put_timeseries self timeseries observatory channels type interval))
        = 0%nat)
    /\ (forall requested,
          py_or truthy_list channels (self_channels self) = Some requested ->
          (forall channel, In channel requested ->
                           select timeseries channel = []) ->
          put_timeseries self timeseries observatory channels type interval
          = (RawInputClient_init (self_tag self) (self_host self) (self_port self)
                                 (self_cwbhost self) (self_cwbport self)
             :: map missing_channel_warning requested ++ [ric_close],
             Ok timeseries)).
Proof.
  intros C self timeseries observatory channels type interval.
  destruct (put_timeseries_shape self timeseries observatory channels type interval)
    as (L & r & E & HL).
  assert (Hinit : count is_init L = 0%nat).
  { apply count_none. eapply Forall_impl; [| exact HL]. intros ev H; apply H. }
  assert (Hclose : count is_close L = 0%nat).
  { apply count_none. eapply Forall_impl; [| exact HL]. intros ev H; apply H. }
  split; [| split; [| split]].
  - rewrite E. unfold log. simpl fst.
    rewrite count_cons, count_app, Hinit. destruct (is_ok r); reflexivity.
  - rewrite E. unfold log, result. simpl fst. simpl snd. intros Hok.
    rewrite Hok. split.
    + rewrite count_cons, count_app, Hclose. reflexivity.
    + eexists (_ :: L). reflexivity.
  - rewrite E. unfold log, result. simpl fst. simpl snd. intros Hok.
    rewrite Hok, app_nil_r, count_cons, Hclose. reflexivity.
  - intros requested Hreq Habs. unfold put_timeseries. rewrite Hreq.
    unfold iter, emit. rewrite bind_Ok. unfold log, result; simpl fst; simpl snd.
    rewrite (put_timeseries_channels_absent self _ _ _ timeseries requested Habs).
    reflexivity.
Qed.

Lemma C2_put_closes_session_only_on_normal_return_witness :
  count is_close
    (log (put_timeseries (C := Reference.collaborators)
            (Reference.factory (Some "second") None)
            [Reference.trace_of "H" (seconds 0) (seconds 1) [1%float; 2%float]]
            None (Some ["E"; "H"]) None None))
  = 1%nat.
Proof.
  apply (C2_put_closes_session_only_on_normal_return Reference.collaborators
           (Reference.factory (Some "second") None)
           [Reference.trace_of "H" (seconds 0) (seconds 1) [1%float; 2%float]]
           None (Some ["E"; "H"]) None None).
  reflexivity.
Defined.

(** C2 fails as stated on the error path. A requested channel the code
    mapper does not know, present in the input, makes the call raise inside
    the channel loop; the session was opened and no [close] follows. *)
Lemma C2_counterexample :
  put_timeseries (C := Reference.collaborators)
    (Reference.factory (Some "second") None)
    [Reference.trace_of "X" (seconds 0) (seconds 1) [1%float; 2%float]]
    None (Some ["X"]) None None
  = ([RawInputClient_init "GeomagAlg" None None "" 0],
     Raise (TimeseriesFactoryException
              ("Unexpected channel code " ++ quoted "X")%string))
  /\ count is_close
       (log (put_timeseries (C := Reference.collaborators)
               (Reference.factory (Some "second") None)
               [Reference.trace_of "X" (seconds 0) (seconds 1)
                  [1%float; 2%float]]
               None (Some ["X"]) None None))
     = 0%nat.
Proof. split; reflexivity. Qed.

(* ===================================================================== *)
(** ** The window loop: location override and chunking *)
(* ===================================================================== *)

Lemma for_each_invariant {A S} (I : S -> Prop) (P : Event -> Prop)
      (body : A -> S -> M S) :
  (forall x s, I s ->
               Forall P (log (body x s))
               /\ forall s', result (body x s) = Ok s' -> I s') ->
  forall xs s, I s ->
               Forall P (log (for_each xs body s))
               /\ forall s', result (for_each xs body s) = Ok s' -> I s'.
Proof.
  intros Hbody xs. induction xs as [| x xs IH]; intros s Hs; simpl.
  - split; [constructor |]. intros s' E. injection E as <-. exact Hs.
  - destruct (Hbody x s Hs) as [Hl Hr].
    rewrite log_bind, result_bind.
    destruct (result (body x s)) as [s1 | e].
    + destruct (IH s1 (Hr s1 eq_refl)) as [Hl' Hr'].
      split; [apply Forall_app; split; assumption | exact Hr'].
    + split; [rewrite app_nil_r; exact Hl | discriminate].
Qed.

Lemma wire_locations_Forall (loc : option string) (l : list Event) :
  Forall (fun ev => Forall (eq loc) (wire_locations [ev])) l ->
  Forall (eq loc) (wire_locations l).
Proof.
  induction 1 as [| ev l Hev _ IH]; [constructor |].
  change (ev :: l) with ([ev] ++ l). unfold wire_locations in *.
  rewrite flat_map_app. apply Forall_app. split; assumption.
Qed.

Section LocationOverride.
Context {C : Collaborators}.
Variable self : EdgeFactory.
Variable override : string.
Hypothesis Hoverride : self_locationCode self = Some override.

Lemma _get_edge_location_override observatory channel type interval :
  _get_edge_location self observatory channel type interval = Some override.
Proof. unfold _get_edge_location. rewrite Hoverride. reflexivity. Qed.

(** [self.locationCode or location] when [location] already is the
    override: the override again, truthy or not. *)
Lemma or_location_override :
  py_or truthy_str (self_locationCode self) (Some override) = Some override.
Proof.
  rewrite Hoverride. unfold py_or. destruct (truthy_str override); reflexivity.
Qed.

Lemma _put_trace_window_override trace station edge_channel network totalsamps
      timeoffset samplerate i locals :
  l_location locals = Some override
  /\ (forall sn, l_seedname locals = Some sn -> sn_location sn = Some override) ->
  Forall (fun ev => Forall (eq (Some override)) (wire_locations [ev]))
         (log (_put_trace_window self trace station edge_channel network
                                 totalsamps timeoffset samplerate i locals))
  /\ forall locals',
      result (_put_trace_window self trace station edge_channel network
                                totalsamps timeoffset samplerate i locals)
      = Ok locals' ->
      l_location locals' = Some override
      /\ (forall sn, l_seedname locals' = Some sn ->
                     sn_location sn = Some override).
Proof.
  intros [Hloc _]. unfold _put_trace_window. rewrite Hloc, or_location_override.
  rewrite log_bind, result_bind, ric_call_log. split.
  - apply Forall_app. split.
    + repeat constructor.
    + destruct (result (ric_call _)); constructor.
  - intros locals'. destruct (result (ric_call _)); [| discriminate].
    intros E. injection E as <-. simpl. split; [reflexivity |].
    intros sn E. injection E as <-. reflexivity.
Qed.

Lemma _put_trace_override trace observatory channel type interval :
  Forall (eq (Some override))
         (wire_locations
            (log (_put_trace self trace observatory channel type interval))).
Proof.
  apply wire_locations_Forall. unfold _put_trace.
  apply bind_log_Forall; [constructor |]. intros edge_channel.
  destruct (interval_params self) as [[[nsamp timeoffset] samplerate] |];
    [| constructor].
  rewrite _get_edge_location_override.
  match goal with
  | |- context [for_each ?xs ?body ?s] =>
      destruct (for_each_invariant
                  (fun locals =>
                     l_location locals = Some override
                     /\ (forall sn, l_seedname locals = Some sn ->
                                    sn_location sn = Some override))
                  (fun ev => Forall (eq (Some override)) (wire_locations [ev]))
                  body
                  (fun i locals => _put_trace_window_override
                                     trace _ _ _ _ _ _ i locals)
                  xs s) as [Hlog Hfinal]
  end.
  { simpl. split; [reflexivity | discriminate]. }
  rewrite log_bind. apply Forall_app. split; [exact Hlog |].
  match goal with
  | |- context [result ?m] => destruct (result m) as [final |] eqn:E
  end; [| constructor].
  destruct (Hfinal final eq_refl) as [_ Hsn].
  destruct (l_seedname final) as [sn |]; [| constructor].
  rewrite ric_call_log. repeat constructor. simpl.
  symmetry. apply Hsn. reflexivity.
Qed.

End LocationOverride.

(** C10, as the source has it. When the configured location override is
    the empty string, the two override points agree. [_get_edge_location]
    returns the empty string (its test is [is not None]); in the window
    loop [self.locationCode or location] falls through to [location], which
    holds that same empty string; so every window, and the final flush,
    carries the empty location code, not the one derived from the type. *)
Theorem C10_empty_override_reaches_the_wire :
  forall (C : Collaborators) (self : EdgeFactory) (trace : Trace.t float)
         (observatory : option string) (channel : string)
         (type interval : option string),
    self_locationCode self = Some "" ->
    _get_edge_location self observatory channel type interval = Some ""
    /\ py_or truthy_str (self_locationCode self)
             (_get_edge_location self observatory channel type interval)
       = Some ""
    /\ Forall (eq (Some ""))
              (wire_locations
                 (log (_put_trace self trace observatory channel type interval))).
Proof.
  intros C self trace observatory channel type interval H.
  split; [| split].
  - apply _get_edge_location_override, H.
  - rewrite (_get_edge_location_override self "" H).
    apply or_location_override, H.
  - apply (_put_trace_override self "" H).
Qed.

Lemma C10_empty_override_reaches_the_wire_witness :
  Forall (eq (Some ""))
         (wire_locations
            (log (_put_trace (C := Reference.collaborators)
                    (Reference.factory (Some "second") (Some ""))
                    (Reference.trace_of "H" (seconds 0) (seconds 1)
                       [1%float; 2%float])
                    (Some "BOU") "H" (Some "variation") (Some "second")))).
Proof.
  apply (C10_empty_override_reaches_the_wire Reference.collaborators
           (Reference.factory (Some "second") (Some ""))
           (Reference.trace_of "H" (seconds 0) (seconds 1) [1%float; 2%float])
           (Some "BOU") "H" (Some "variation") (Some "second")).
  reflexivity.
Defined.

(** C10 fails as stated. With the empty string as override and the type
    variation, the one window of a two-sample trace and the flush go out
    under the empty location code; the code derived from the type, R0, is
    on neither. *)
Lemma C10_counterexample :
  log (_put_trace (C := Reference.collaborators)
         (Reference.factory (Some "second") (Some ""))
         (Reference.trace_of "H" (seconds 0) (seconds 1) [1%float; 2%float])
         (Some "BOU") "H" (Some "variation") (Some "second"))
  = [ric_send (mkSeedName (Some "BOU") "SVH" (Some "") "NT") 2 [1000; 2000]
              (seconds 0) 1%float 0 0 0 0;
     ric_forceout (mkSeedName (Some "BOU") "SVH" (Some "") "NT")]
  /\ _get_edge_location (Reference.factory (Some "second") None)
                        (Some "BOU") "H" (Some "variation") (Some "second")
     = Some "R0".
Proof. split; reflexivity. Qed.




Section Chunker.
Context {C : Collaborators}.
Variable self : EdgeFactory.
Hypothesis no_fault : forall ev, ric_fault ev = None.

Variable trace : Trace.t float.
Variable station : option string.
Variables edge_channel network : string.
Variables totalsamps N timeoffset : Z.
Variable samplerate : float.
Variable T0 : Time.
Hypothesis N_pos : 0 < N.




End Chunker.





(* ===================================================================== *)
(** ** Numeric codec: the round trip of an integer sample *)
(* ===================================================================== *)

(** What the two conversions do to the samples of a stream of integer
    traces: each sample is decoded, then encoded. *)
Lemma codec_on_streams (stream : Stream Z) :
  map (fun trace => numpy.values (Trace.data (_convert_trace_to_int trace)))
      (_convert_trace_to_decimal stream)
  = map (fun trace =>
           map (fun x => encode_sample (decode_sample x))
               (numpy.values (Trace.data trace)))
        stream.
Proof.
  unfold _convert_trace_to_decimal. rewrite map_map.
  apply map_ext. intros trace. simpl. rewrite !map_map. reflexivity.
Qed.

Lemma check_range_sound (P : Z -> bool) :
  forall (n : positive) (lo : Z),
    check_range P lo n = true ->
    forall x, lo <= x < lo + Zpos n -> P x = true.
Proof.
  induction n as [p IH | p IH |]; intros lo H x Hx; simpl in H.
  - apply andb_prop in H. destruct H as [H H2].
    apply andb_prop in H. destruct H as [H0 H1].
    destruct (Z.eq_dec x lo) as [-> | Hne]; [exact H0 |].
    destruct (Z_lt_le_dec x (lo + 1 + Zpos p)) as [Hlt | Hge].
    + apply (IH (lo + 1) H1). lia.
    + apply (IH (lo + 1 + Zpos p) H2). lia.
  - apply andb_prop in H. destruct H as [H1 H2].
    destruct (Z_lt_le_dec x (lo + Zpos p)) as [Hlt | Hge].
    + apply (IH lo H1). lia.
    + apply (IH (lo + Zpos p) H2). lia.
  - replace x with lo by lia. exact H.
Qed.

(* --------------------------------------------------------------------- *)
(** *** binary64 rounding, from its specification [SpecFloat]

    The facts below follow the specified operations: the digit count, the
    right shift that keeps 53 digits, rounding to nearest, and from them
    the quotient by 1000.0 and the product with 1000.0. *)

Lemma digits2_pos_bounds (p : positive) :
  2 ^ (Zpos (digits2_pos p) - 1) <= Zpos p < 2 ^ Zpos (digits2_pos p).
Proof.
  induction p as [p IH | p IH |]; simpl digits2_pos.
  - rewrite Pos2Z.inj_succ.
    replace (Z.succ (Zpos (digits2_pos p)) - 1) with (Z.succ (Zpos (digits2_pos p) - 1)) by lia.
    rewrite !Z.pow_succ_r by lia. lia.
  - rewrite Pos2Z.inj_succ.
    replace (Z.succ (Zpos (digits2_pos p)) - 1) with (Z.succ (Zpos (digits2_pos p) - 1)) by lia.
    rewrite !Z.pow_succ_r by lia. lia.
  - simpl. lia.
Qed.

Lemma Zdigits2_unique (m d : Z) :
  0 < d -> 2 ^ (d - 1) <= m < 2 ^ d -> Zdigits2 m = d.
Proof.
  intros Hd [Hlo Hhi].
  assert (0 < m) by (pose proof (Z.pow_pos_nonneg 2 (d - 1)); lia).
  destruct m as [| p | p]; try lia. simpl.
  pose proof (digits2_pos_bounds p) as [Blo Bhi].
  set (k := Zpos (digits2_pos p)) in *.
  destruct (Z.lt_trichotomy k d) as [Hlt | [Heq | Hgt]]; [| exact Heq |].
  - assert (2 ^ k <= 2 ^ (d - 1)) by (apply Z.pow_le_mono_r; lia). lia.
  - assert (2 ^ d <= 2 ^ (k - 1)) by (apply Z.pow_le_mono_r; lia). lia.
Qed.

Lemma shr_1_m (mrs : shr_record) :
  0 <= shr_m mrs -> shr_m (shr_1 mrs) = shr_m mrs / 2.
Proof.
  destruct mrs as [m r s]. cbn [shr_m]. intros Hm.
  destruct m as [| [p | p |] | p]; cbn [shr_1 shr_m]; try lia.
  - reflexivity.
  - apply (Z.div_unique _ _ _ 1); lia.
  - apply (Z.div_unique _ _ _ 0); lia.
  - reflexivity.
Qed.

Lemma iter_shr_1_m (n : positive) :
  forall mrs, 0 <= shr_m mrs ->
    shr_m (iter_pos shr_1 n mrs) = shr_m mrs / 2 ^ Zpos n.
Proof.
  induction n as [n IH | n IH |]; intros mrs Hm; simpl iter_pos.
  - assert (Hp : 0 < 2 ^ Zpos n) by (apply Z.pow_pos_nonneg; lia).
    assert (E : 2 ^ Zpos n~1 = 2 * (2 ^ Zpos n * 2 ^ Zpos n)).
    { rewrite (Pos2Z.inj_xI n).
      replace (2 * Zpos n + 1) with (1 + (Zpos n + Zpos n)) by lia.
      rewrite !Z.pow_add_r by lia. reflexivity. }
    assert (H1 : 0 <= shr_m (shr_1 mrs)) by (rewrite shr_1_m by lia; apply Z.div_pos; lia).
    assert (H2 : 0 <= shr_m (iter_pos shr_1 n (shr_1 mrs)))
      by (rewrite IH by lia; apply Z.div_pos; lia).
    rewrite E, IH, IH, shr_1_m by lia.
    rewrite !Z.div_div by lia. reflexivity.
  - assert (Hp : 0 < 2 ^ Zpos n) by (apply Z.pow_pos_nonneg; lia).
    assert (E : 2 ^ Zpos n~0 = 2 ^ Zpos n * 2 ^ Zpos n).
    { rewrite (Pos2Z.inj_xO n).
      replace (2 * Zpos n) with (Zpos n + Zpos n) by lia.
      rewrite !Z.pow_add_r by lia. reflexivity. }
    assert (H2 : 0 <= shr_m (iter_pos shr_1 n mrs))
      by (rewrite IH by lia; apply Z.div_pos; lia).
    rewrite E, IH, IH by lia.
    rewrite !Z.div_div by lia. reflexivity.
  - rewrite shr_1_m by lia. reflexivity.
Qed.

Lemma shr_record_of_loc_m (m : Z) (l : location) :
  shr_m (shr_record_of_loc m l) = m.
Proof. destruct l as [| []]; reflexivity. Qed.

Lemma round_nearest_even_cases (m : Z) (l : location) :
  round_nearest_even m l = m \/ round_nearest_even m l = m + 1.
Proof.
  destruct l as [| []]; simpl; auto. destruct (Z.even m); auto.
Qed.

Lemma shr_fexp_m (m e : Z) (l : location) (d : Z) :
  2 ^ (d - 1) <= m < 2 ^ d -> 53 <= d -> -1074 <= d + e - 53 ->
  shr_m (fst (shr_fexp 53 1024 m e l)) = m / 2 ^ (d - 53)
  /\ snd (shr_fexp 53 1024 m e l) = e + (d - 53).
Proof.
  intros Hm Hd He.
  assert (0 < m) by (pose proof (Z.pow_pos_nonneg 2 (d - 1)); lia).
  unfold shr_fexp. rewrite (Zdigits2_unique m d) by lia.
  unfold fexp, emin.
  replace (Z.max (d + e - 53) (3 - 1024 - 53) - e) with (d - 53) by lia.
  destruct (d - 53) as [| p | p] eqn:E; try lia.
  - simpl. rewrite shr_record_of_loc_m. rewrite Z.div_1_r. split; [reflexivity | lia].
  - unfold shr. simpl fst. simpl snd. rewrite iter_shr_1_m.
    + rewrite shr_record_of_loc_m. split; reflexivity.
    + rewrite shr_record_of_loc_m. lia.
Qed.

Lemma binary_round_aux_bracket (sx : bool) (mx ex : Z) (lx : location) (d : Z) :
  2 ^ (d - 1) <= mx < 2 ^ d -> 53 <= d ->
  -1074 <= d + ex - 53 -> d + ex - 53 + 1 <= 971 ->
  exists (m : positive) (w : Z),
    binary_round_aux 53 1024 sx mx ex lx = S754_finite sx m (ex + w)
    /\ 2 ^ 52 <= Zpos m < 2 ^ 53
    /\ ((w = d - 53
         /\ (Zpos m = mx / 2 ^ (d - 53) \/ Zpos m = mx / 2 ^ (d - 53) + 1))
        \/ (w = d - 53 + 1 /\ Zpos m = 2 ^ 52
            /\ mx / 2 ^ (d - 53) = 2 ^ 53 - 1)).
Proof.
  intros Hm Hd Hlo Hhi.
  set (n := d - 53).
  assert (Hn : 0 < 2 ^ n) by (apply Z.pow_pos_nonneg; lia).
  assert (Hq : 2 ^ 52 <= mx / 2 ^ n < 2 ^ 53).
  { assert (E1 : 2 ^ (d - 1) = 2 ^ 52 * 2 ^ n)
      by (rewrite <- Z.pow_add_r by lia; f_equal; lia).
    assert (E2 : 2 ^ d = 2 ^ 53 * 2 ^ n)
      by (rewrite <- Z.pow_add_r by lia; f_equal; lia).
    split.
    - apply Z.div_le_lower_bound; lia.
    - apply Z.div_lt_upper_bound; lia. }
  unfold binary_round_aux.
  destruct (shr_fexp_m mx ex lx d Hm Hd Hlo) as [F1 F2].
  destruct (shr_fexp 53 1024 mx ex lx) as [mrs' e']. cbn [fst snd] in F1, F2.
  fold n in F1, F2.
  set (m'' := round_nearest_even (shr_m mrs') (loc_of_shr_record mrs')).
  assert (Hm'' : m'' = mx / 2 ^ n \/ m'' = mx / 2 ^ n + 1).
  { unfold m''. rewrite <- F1. apply round_nearest_even_cases. }
  destruct (Z_lt_le_dec m'' (2 ^ 53)) as [Hlt | Hge].
  - destruct (shr_fexp_m m'' e' loc_Exact 53) as [G1 G2]; [simpl; lia | lia | lia |].
    destruct (shr_fexp 53 1024 m'' e' loc_Exact) as [mrs'' e''].
    cbn [fst snd] in G1, G2.
    change (2 ^ (53 - 53)) with 1 in G1. rewrite Z.div_1_r in G1. rewrite G1.
    destruct m'' as [| p | p] eqn:Em; try lia.
    replace (e'' <=? 1024 - 53) with true by (symmetry; apply Z.leb_le; lia).
    exists p, n. subst e'' e'. rewrite Z.add_0_r.
    split; [reflexivity |]. split; [simpl in *; lia |]. left. split; [reflexivity | exact Hm''].
  - assert (Em : m'' = 2 ^ 53) by lia.
    destruct (shr_fexp_m m'' e' loc_Exact 54) as [G1 G2]; [rewrite Em; simpl; lia | lia | lia |].
    destruct (shr_fexp 53 1024 m'' e' loc_Exact) as [mrs'' e''].
    cbn [fst snd] in G1, G2.
    rewrite G1, Em. change (2 ^ 53 / 2 ^ (54 - 53)) with (Zpos (2 ^ 52)).
    replace (e'' <=? 1024 - 53) with true by (symmetry; apply Z.leb_le; lia).
    exists (2 ^ 52)%positive, (n + 1). subst e'' e'.
    split; [f_equal; lia |]. split; [simpl; lia |].
    right. split; [reflexivity |]. split; [reflexivity | lia].
Qed.

Lemma pos_iter_xO (p n : positive) :
  Zpos (Pos.iter xO p n) = Zpos p * 2 ^ Zpos n.
Proof.
  induction n as [| n IH] using Pos.peano_ind.
  - simpl. lia.
  - rewrite Pos.iter_succ, Pos2Z.inj_succ, Z.pow_succ_r by lia.
    rewrite Pos2Z.inj_xO, IH. lia.
Qed.

Lemma binary_round_aux_exact (sx : bool) (m : positive) (ex : Z) :
  2 ^ 52 <= Zpos m < 2 ^ 53 -> -1074 <= ex <= 971 ->
  binary_round_aux 53 1024 sx (Zpos m) ex loc_Exact = S754_finite sx m ex.
Proof.
  intros Hm He. unfold binary_round_aux, shr_fexp.
  rewrite (Zdigits2_unique (Zpos m) 53) by (simpl; lia).
  unfold fexp, emin.
  replace (Z.max (53 + ex - 53) (3 - 1024 - 53) - ex) with 0 by lia.
  cbn [shr shr_record_of_loc shr_m loc_of_shr_record round_nearest_even].
  rewrite (Zdigits2_unique (Zpos m) 53) by (simpl; lia).
  replace (Z.max (53 + ex - 53) (3 - 1024 - 53) - ex) with 0 by lia.
  cbn [shr shr_record_of_loc shr_m].
  replace (ex <=? 1024 - 53) with true by (symmetry; apply Z.leb_le; lia).
  reflexivity.
Qed.

(** The binary64 image of a nonzero integer below 2^53 in magnitude:
    its magnitude shifted up to 53 digits. *)
Lemma binary_round_small (s : bool) (p : positive) :
  Zpos p < 2 ^ 53 ->
  exists (m : positive),
    binary_round 53 1024 s p 0
    = S754_finite s m (Zpos (digits2_pos p) - 53)
    /\ Zpos m = Zpos p * 2 ^ (53 - Zpos (digits2_pos p))
    /\ 2 ^ 52 <= Zpos m < 2 ^ 53.
Proof.
  intros Hp. pose proof (digits2_pos_bounds p) as [Blo Bhi].
  set (dx := Zpos (digits2_pos p)) in *.
  assert (Hdx : dx <= 53).
  { destruct (Z_le_gt_dec dx 53) as [H | H]; [exact H |].
    assert (2 ^ 53 <= 2 ^ (dx - 1)) by (apply Z.pow_le_mono_r; lia). lia. }
  assert (Hdx0 : 0 < dx) by (unfold dx; lia).
  assert (Hscale : 2 ^ 52 <= Zpos p * 2 ^ (53 - dx) < 2 ^ 53).
  { assert (E1 : 2 ^ 52 = 2 ^ (dx - 1) * 2 ^ (53 - dx))
      by (rewrite <- Z.pow_add_r by lia; f_equal; lia).
    assert (E2 : 2 ^ 53 = 2 ^ dx * 2 ^ (53 - dx))
      by (rewrite <- Z.pow_add_r by lia; f_equal; lia).
    assert (0 < 2 ^ (53 - dx)) by (apply Z.pow_pos_nonneg; lia).
    rewrite E1, E2. split; nia. }
  unfold binary_round, shl_align. fold dx.
  unfold fexp, emin.
  replace (Z.max (dx + 0 - 53) (3 - 1024 - 53) - 0) with (dx - 53) by lia.
  replace (Z.max (dx + 0 - 53) (3 - 1024 - 53)) with (dx - 53) by lia.
  destruct (dx - 53) as [| q | q] eqn:E; try lia.
  - exists p. replace (53 - dx) with 0 in * by lia. rewrite Z.mul_1_r in *.
    split; [| split; [reflexivity | exact Hscale]].
    apply binary_round_aux_exact; lia.
  - exists (Pos.iter xO p q).
    assert (Em : Zpos (Pos.iter xO p q) = Zpos p * 2 ^ (53 - dx)).
    { rewrite pos_iter_xO. f_equal. f_equal. lia. }
    split; [| split; [exact Em | rewrite Em; exact Hscale]].
    apply binary_round_aux_exact; [rewrite Em; exact Hscale | lia].
Qed.

Lemma binary_round_aux_near (sx : bool) (mx ex : Z) (lx : location) (d : Z) :
  2 ^ (d - 1) <= mx < 2 ^ d -> 53 <= d ->
  -1074 <= d + ex - 53 -> d + ex - 53 + 1 <= 971 ->
  exists (m : positive) (w : Z),
    binary_round_aux 53 1024 sx mx ex lx = S754_finite sx m (ex + w)
    /\ 2 ^ 52 <= Zpos m < 2 ^ 53
    /\ d - 53 <= w <= d - 53 + 1
    /\ - 2 ^ w <= Zpos m * 2 ^ w - mx <= 2 ^ w.
Proof.
  intros Hm Hd Hlo Hhi.
  destruct (binary_round_aux_bracket sx mx ex lx d Hm Hd Hlo Hhi)
    as (m & w & E & Hmm & Hcase).
  exists m, w. split; [exact E |]. split; [exact Hmm |].
  set (B := 2 ^ (d - 53)) in *.
  assert (HB : 0 < B) by (apply Z.pow_pos_nonneg; lia).
  pose proof (Z.div_mod mx B ltac:(lia)) as Hdm.
  pose proof (Z.mod_pos_bound mx B HB) as Hr.
  destruct Hcase as [[-> Hc] | (-> & Em & Et)].
  - split; [lia |]. fold B. destruct Hc as [-> | ->]; nia.
  - split; [lia |].
    replace (2 ^ (d - 53 + 1)) with (2 * B)
      by (unfold B; rewrite Z.pow_add_r by lia; lia).
    rewrite Em. nia.
Qed.

Lemma SFdiv_1000 (s : bool) (M : positive) (eX : Z) :
  2 ^ 52 <= Zpos M < 2 ^ 53 -> -60 <= eX <= 60 ->
  exists (mD : positive) (w1 : Z),
    SFdiv 53 1024 (S754_finite s M eX) (S754_finite false m1000 (-43))
    = S754_finite s mD (eX - 10 + w1)
    /\ 2 ^ 52 <= Zpos mD < 2 ^ 53
    /\ 0 <= w1 <= 2
    /\ - 2 ^ w1 <= Zpos mD * 2 ^ w1 - Zpos M * 2 ^ 53 / Zpos m1000 <= 2 ^ w1.
Proof.
  intros HM He. unfold SFdiv, SFdiv_core_binary.
  rewrite (Zdigits2_unique (Zpos M) 53) by (simpl; lia).
  rewrite (Zdigits2_unique (Zpos m1000) 53) by (simpl; unfold m1000; lia).
  unfold fexp, emin.
  replace (Z.min (Z.max (53 + eX - (53 + -43) - 53) (3 - 1024 - 53)) (eX - -43))
    with (eX - 10) by lia.
  replace (eX - -43 - (eX - 10)) with 53 by lia.
  rewrite Z.shiftl_mul_pow2 by lia.
  set (q := Zpos M * 2 ^ 53 / Zpos m1000).
  assert (Hq : 2 ^ 52 <= q < 2 ^ 54).
  { unfold q, m1000. split.
    - apply Z.div_le_lower_bound; lia.
    - apply Z.div_lt_upper_bound; lia. }
  assert (Eq : Z.div_eucl (Zpos M * 2 ^ 53) (Zpos m1000)
               = (q, snd (Z.div_eucl (Zpos M * 2 ^ 53) (Zpos m1000)))).
  { unfold q, Z.div. destruct (Z.div_eucl _ _); reflexivity. }
  rewrite Eq. rewrite xorb_false_r.
  destruct (Z_lt_le_dec q (2 ^ 53)) as [Hlt | Hge].
  - destruct (binary_round_aux_near s q (eX - 10)
                (new_location (Zpos m1000)
                   (snd (Z.div_eucl (Zpos M * 2 ^ 53) (Zpos m1000)))) 53)
      as (mD & w & E & Hm & Hw & Hb); [simpl; lia | lia | lia | lia |].
    exists mD, w. split; [exact E |]. split; [exact Hm |]. split; [lia | exact Hb].
  - destruct (binary_round_aux_near s q (eX - 10)
                (new_location (Zpos m1000)
                   (snd (Z.div_eucl (Zpos M * 2 ^ 53) (Zpos m1000)))) 54)
      as (mD & w & E & Hm & Hw & Hb); [simpl; lia | lia | lia | lia |].
    exists mD, w. split; [exact E |]. split; [exact Hm |]. split; [lia | exact Hb].
Qed.

Lemma SFmul_1000 (s : bool) (mD : positive) (eD : Z) :
  2 ^ 52 <= Zpos mD < 2 ^ 53 -> -80 <= eD <= 80 ->
  exists (mE : positive) (w2 : Z),
    SFmul 53 1024 (S754_finite s mD eD) (S754_finite false m1000 (-43))
    = S754_finite s mE (eD - 43 + w2)
    /\ 2 ^ 52 <= Zpos mE < 2 ^ 53
    /\ 52 <= w2 <= 54
    /\ - 2 ^ w2 <= Zpos mE * 2 ^ w2 - Zpos mD * Zpos m1000 <= 2 ^ w2.
Proof.
  intros Hm He. unfold SFmul. rewrite xorb_false_r.
  rewrite Pos2Z.inj_mul.
  replace (eD + -43) with (eD - 43) by lia.
  set (P := Zpos mD * Zpos m1000).
  assert (HP : 2 ^ 104 <= P < 2 ^ 106) by (unfold P, m1000; simpl; nia).
  destruct (Z_lt_le_dec P (2 ^ 105)) as [Hlt | Hge].
  - destruct (binary_round_aux_near s P (eD - 43) loc_Exact 105)
      as (mE & w & E & HmE & Hw & Hb); [simpl; lia | lia | lia | lia |].
    exists mE, w. split; [exact E |]. split; [exact HmE |]. split; [lia | exact Hb].
  - destruct (binary_round_aux_near s P (eD - 43) loc_Exact 106)
      as (mE & w & E & HmE & Hw & Hb); [simpl; lia | lia | lia | lia |].
    exists mE, w. split; [exact E |]. split; [exact HmE |]. split; [lia | exact Hb].
Qed.

Lemma roundtrip_spec (s : bool) (p : positive) :
  Zpos p < 2 ^ 48 ->
  exists (mE : positive) (eE : Z),
    SFmul 53 1024 (SFdiv 53 1024 (binary_round 53 1024 s p 0) F1000) F1000
    = S754_finite s mE eE
    /\ eE < 0
    /\ Zpos p - 1 <= Zpos mE / 2 ^ (- eE) <= Zpos p.
Proof.
  intros Hp.
  destruct (binary_round_small s p) as (M & EM & HMp & HM); [lia |].
  pose proof (digits2_pos_bounds p) as [Blo Bhi].
  set (dx := Zpos (digits2_pos p)) in *.
  assert (Hdx0 : 0 < dx) by (unfold dx; lia).
  assert (Hdx : dx <= 48).
  { destruct (Z_le_gt_dec dx 48) as [H | H]; [exact H |].
    assert (2 ^ 48 <= 2 ^ (dx - 1)) by (apply Z.pow_le_mono_r; lia). lia. }
  set (U := 2 ^ (53 - dx)) in *.
  assert (HU : 2 ^ 5 <= U) by (apply Z.pow_le_mono_r; lia).
  destruct (SFdiv_1000 s M (dx - 53)) as (mD & w1 & ED & HmD & Hw1 & HbD);
    [exact HM | lia |].
  destruct (SFmul_1000 s mD (dx - 53 - 10 + w1)) as (mE & w2 & EE & HmE & Hw2 & HbE);
    [exact HmD | lia |].
  exists mE, (dx - 53 - 10 + w1 - 43 + w2).
  unfold F1000. rewrite EM, ED, EE.
  split; [reflexivity |]. split; [lia |].
  replace (- (dx - 53 - 10 + w1 - 43 + w2)) with (106 - dx - w1 - w2) by lia.
  set (c := 2 ^ (106 - dx - w1 - w2)).
  assert (Hc : 0 < c) by (apply Z.pow_pos_nonneg; lia).
  assert (HcK : c * (2 ^ w1 * 2 ^ w2) = U * 2 ^ 53).
  { unfold c, U. rewrite <- !Z.pow_add_r by lia. f_equal. lia. }
  set (q := Zpos M * 2 ^ 53 / Zpos m1000) in *.
  assert (Hq : Zpos m1000 * q <= Zpos M * 2 ^ 53 < Zpos m1000 * q + Zpos m1000).
  { pose proof (Z.div_mod (Zpos M * 2 ^ 53) (Zpos m1000) ltac:(lia)) as Hdm.
    pose proof (Z.mod_pos_bound (Zpos M * 2 ^ 53) (Zpos m1000) ltac:(lia)) as Hr.
    fold q in Hdm. lia. }
  assert (HK : 0 < 2 ^ w1 * 2 ^ w2)
    by (apply Z.mul_pos_pos; apply Z.pow_pos_nonneg; lia).
  assert (Hmain : (Zpos p - 1) * (U * 2 ^ 53) <= Zpos mE * (2 ^ w1 * 2 ^ w2)
                  /\ Zpos mE * (2 ^ w1 * 2 ^ w2) < (Zpos p + 1) * (U * 2 ^ 53)).
  { replace ((Zpos p - 1) * (U * 2 ^ 53)) with (Zpos M * 2 ^ 53 - U * 2 ^ 53)
      by (rewrite HMp; ring).
    replace ((Zpos p + 1) * (U * 2 ^ 53)) with (Zpos M * 2 ^ 53 + U * 2 ^ 53)
      by (rewrite HMp; ring).
    clearbody q U c. clear EM ED EE HcK HMp Blo Bhi.
    unfold m1000 in *.
    assert (C1 : w1 = 0 \/ w1 = 1 \/ w1 = 2) by lia.
    assert (C2 : w2 = 52 \/ w2 = 53 \/ w2 = 54) by lia.
    destruct C1 as [-> | [-> | ->]]; destruct C2 as [-> | [-> | ->]]; lia. }
  destruct Hmain as [Hlo Hhi]. rewrite <- HcK in Hlo, Hhi.
  split.
  - apply Z.div_le_lower_bound; [exact Hc |].
    apply (Z.mul_le_mono_pos_r _ _ (2 ^ w1 * 2 ^ w2) HK).
    replace (c * (Zpos p - 1) * (2 ^ w1 * 2 ^ w2))
      with ((Zpos p - 1) * (c * (2 ^ w1 * 2 ^ w2))) by ring.
    exact Hlo.
  - apply Z.lt_succ_r. apply Z.div_lt_upper_bound; [exact Hc |].
    apply (Z.mul_lt_mono_pos_r (2 ^ w1 * 2 ^ w2) _ _ HK).
    replace (c * Z.succ (Zpos p) * (2 ^ w1 * 2 ^ w2))
      with ((Zpos p + 1) * (c * (2 ^ w1 * 2 ^ w2))) by ring.
    exact Hhi.
Qed.

Lemma Prim2SF_1000 : Prim2SF 1000%float = F1000.
Proof. reflexivity. Qed.

Lemma Prim2SF_float_of_int (s : bool) (p : positive) :
  Zpos p < 2 ^ 53 ->
  Prim2SF (numpy.float_of_int (if s then Zneg p else Zpos p))
  = binary_round 53 1024 s p 0.
Proof.
  intros Hp. unfold numpy.float_of_int.
  assert (E : binary_normalize prec emax (if s then Zneg p else Zpos p) 0 false
              = binary_round 53 1024 s p 0) by (destruct s; reflexivity).
  rewrite E. apply Prim2SF_SF2Prim.
  destruct (binary_round_small s p Hp) as (M & EM & _ & HM).
  rewrite EM. unfold valid_binary, bounded, canonical_mantissa.
  pose proof (Zdigits2_unique (Zpos M) 53 ltac:(lia) ltac:(simpl; lia)) as Hd.
  simpl in Hd. rewrite Hd.
  pose proof (digits2_pos_bounds p) as [Blo _].
  assert (Zpos (digits2_pos p) <= 53).
  { destruct (Z_le_gt_dec (Zpos (digits2_pos p)) 53) as [H | H]; [exact H |].
    assert (2 ^ 53 <= 2 ^ (Zpos (digits2_pos p) - 1))
      by (apply Z.pow_le_mono_r; lia). lia. }
  unfold fexp, emin, prec, emax. apply andb_true_intro. split.
  - apply Z.eqb_eq. lia.
  - apply Z.leb_le. lia.
Qed.

Lemma roundtrip_int (x : Z) :
  - 2 ^ 48 < x < 2 ^ 48 ->
  encode_sample (decode_sample x) = x
  \/ encode_sample (decode_sample x) = x - Z.sgn x.
Proof.
  intros Hx.
  assert (Hsign : x = 0 \/ exists (s : bool) (p : positive), x = (if s then Zneg p else Zpos p)
                                      /\ Zpos p < 2 ^ 48).
  { destruct x as [| p | p]; [left; reflexivity | right | right].
    - exists false, p. split; [reflexivity | lia].
    - exists true, p. split; [reflexivity | lia]. }
  destruct Hsign as [-> | (s & p & -> & Hp)]; [left; reflexivity |].
  destruct (roundtrip_spec s p Hp) as (mE & eE & E & HeE & Ha).
  assert (HP : Prim2SF (decode_sample (if s then Zneg p else Zpos p) * 1000)%float
               = S754_finite s mE eE).
  { unfold decode_sample.
    rewrite mul_spec, div_spec, Prim2SF_1000, Prim2SF_float_of_int by lia.
    exact E. }
  unfold encode_sample, numpy.astype_int, numpy.trunc. rewrite HP.
  destruct eE as [| e | e]; try lia.
  rewrite Z.shiftr_div_pow2 by lia.
  change (- Zneg e) with (Zpos e) in Ha.
  set (a := Zpos mE / 2 ^ Zpos e) in *.
  assert (Hrange : (numpy.int64_min <=? (if s then - a else a))
                   && ((if s then - a else a) <=? numpy.int64_max) = true).
  { unfold numpy.int64_min, numpy.int64_max. apply andb_true_intro.
    split; apply Z.leb_le; destruct s; lia. }
  rewrite Hrange.
  destruct s; simpl Z.sgn; lia.
Qed.

(** C8, as the source has it. Decoding divides an integer sample by 1000.0
    and encoding multiplies by 1000.0 and truncates toward zero, both in
    binary64. For every integer sample [x] with [|x| < 2^48] (every 32-bit
    sample among them) the round trip gives [x] or the integer next to [x]
    toward zero; it gives [x] itself for [|x| <= 1000]. *)
Theorem C8_roundtrip_within_one_toward_zero :
  forall x : Z,
    - 2 ^ 48 < x < 2 ^ 48 ->
    (encode_sample (decode_sample x) = x
     \/ encode_sample (decode_sample x) = x - Z.sgn x)
    /\ (- 1000 <= x <= 1000 -> encode_sample (decode_sample x) = x).
Proof.
  intros x Hx. split.
  - apply roundtrip_int, Hx.
  - intros Hs.
    assert (H : check_range
                  (fun x => encode_sample (decode_sample x) =? x)
                  (- 1000) 2001 = true) by (vm_compute; reflexivity).
    pose proof (check_range_sound _ _ _ H x ltac:(lia)) as Hc. simpl in Hc.
    apply Z.eqb_eq in Hc. exact Hc.
Qed.

Lemma C8_roundtrip_within_one_toward_zero_witness :
  encode_sample (decode_sample 720) = 720.
Proof.
  apply (C8_roundtrip_within_one_toward_zero 720); lia.
Defined.

(** C8 fails as stated: 1001 decodes to the binary64 nearest 1.001, which
    times 1000.0 is 1000.9999999999999, and truncation leaves 1000. *)
Lemma C8_counterexample :
  encode_sample (decode_sample 1001) = 1000
  /\ map (fun trace => numpy.values (Trace.data (_convert_trace_to_int trace)))
         (_convert_trace_to_decimal
            [Trace.mk (Stats.mk "H" (seconds 0) (seconds 1) None [])
                      (numpy.array [1000; 1001; 1002])])
     = [[1000; 1000; 1002]].
Proof. split; vm_compute; reflexivity. Qed.

(* ===================================================================== *)
(** ** Code mapper: which requests have a channel code *)
(* ===================================================================== *)

Lemma _get_interval_code_Ok_inv (interval : option string) (code : string) :
  _get_interval_code interval = Ok code ->
  In interval [Some "daily"; Some "hourly"; Some "minute"; Some "second"].
Proof.
  unfold _get_interval_code. destruct interval as [s |]; simpl; [| discriminate].
  repeat match goal with
  | |- context [String.eqb s ?lit] =>
      destruct (String.eqb_spec s lit) as [-> | _]; [intros _; tauto |]
  end.
  discriminate.
Qed.

Lemma _get_edge_channel_Ok_inv (observatory : option string) (channel : string)
      (type interval : option string) (code : string) :
  _get_edge_channel observatory channel type interval = Ok code ->
  In interval [Some "daily"; Some "hourly"; Some "minute"; Some "second"]
  /\ In channel ["D"; "E"; "F"; "H"; "Z"].
Proof.
  unfold _get_edge_channel.
  destruct (_get_interval_code interval) as [c |] eqn:Ei; simpl; [| discriminate].
  intros H. split; [eapply _get_interval_code_Ok_inv, Ei |].
  revert H.
  repeat match goal with
  | |- context [String.eqb channel ?lit] =>
      destruct (String.eqb_spec channel lit) as [-> | _]; [intros _; tauto |]
  end.
  discriminate.
Qed.

Lemma _get_edge_channel_valid (observatory : option string) (channel : string)
      (type interval : option string) :
  In interval [Some "daily"; Some "hourly"; Some "minute"; Some "second"] ->
  In channel ["D"; "E"; "F"; "H"; "Z"] ->
  is_ok (_get_edge_channel observatory channel type interval) = true.
Proof.
  simpl. intros [<- | [<- | [<- | [<- | []]]]] [<- | [<- | [<- | [<- | [<- | []]]]]];
    reflexivity.
Qed.

(** X1. [_get_edge_channel] yields a code exactly for the twenty requests
    made of one of the four intervals and one of the five channels. The
    interval is looked at first: an interval outside the four raises the
    interval error whatever the channel is, also for a channel that would
    be refused itself. *)
Theorem X1_edge_channel_defined_iff_valid :
  forall (observatory : option string) (channel : string)
         (type interval : option string),
    (is_ok (_get_edge_channel observatory channel type interval) = true
     <-> In interval [Some "daily"; Some "hourly"; Some "minute"; Some "second"]
         /\ In channel ["D"; "E"; "F"; "H"; "Z"])
    /\ (~ In interval [Some "daily"; Some "hourly"; Some "minute"; Some "second"] ->
        _get_edge_channel observatory channel type interval
        = Raise (unexpected_interval interval)).
Proof.
  intros observatory channel type interval. split; [split |].
  - destruct (_get_edge_channel observatory channel type interval) as [code |] eqn:E;
      [intros _ | discriminate].
    eapply _get_edge_channel_Ok_inv, E.
  - intros [Hi Hc]. apply _get_edge_channel_valid; assumption.
  - intros Hi. unfold _get_edge_channel.
    rewrite (_get_interval_code_invalid _ Hi). reflexivity.
Qed.

Lemma X1_edge_channel_defined_iff_valid_witness :
  is_ok (_get_edge_channel (Some "BOU") "F" None (Some "hourly")) = true
  /\ _get_edge_channel (Some "BOU") "X" None (Some "yearly")
     = Raise (unexpected_interval (Some "yearly")).
Proof.
  split.
  - apply (X1_edge_channel_defined_iff_valid (Some "BOU") "F" None (Some "hourly")).
    simpl. tauto.
  - apply (X1_edge_channel_defined_iff_valid (Some "BOU") "X" None (Some "yearly")).
    simpl. intros [H | [H | [H | [H | []]]]]; discriminate H.
Defined.

(** X2. Two requests that get the same channel code have the same channel
    and the same interval: the twenty codes are pairwise distinct, whatever
    the observatory and the type. *)
Theorem X2_edge_channel_injective :
  forall (observatory observatory' : option string) (channel channel' : string)
         (type type' interval interval' : option string) (code : string),
    _get_edge_channel observatory channel type interval = Ok code ->
    _get_edge_channel observatory' channel' type' interval' = Ok code ->
    channel = channel' /\ interval = interval'.
Proof.
  intros o o' c c' t t' i i' code H H'.
  destruct (_get_edge_channel_Ok_inv _ _ _ _ _ H) as [Hi Hc].
  destruct (_get_edge_channel_Ok_inv _ _ _ _ _ H') as [Hi' Hc'].
  simpl in Hi, Hc, Hi', Hc'.
  destruct Hi as [<- | [<- | [<- | [<- | []]]]];
    destruct Hc as [<- | [<- | [<- | [<- | [<- | []]]]]];
    cbv in H; injection H as <-;
    destruct Hi' as [<- | [<- | [<- | [<- | []]]]];
    destruct Hc' as [<- | [<- | [<- | [<- | [<- | []]]]]];
    cbv in H'; first [discriminate H' | split; reflexivity].
Qed.

Lemma X2_edge_channel_injective_witness :
  "H" = "H" /\ Some "minute" = Some "minute".
Proof.
  apply (X2_edge_channel_injective (Some "BOU") (Some "FRD") "H" "H"
           (Some "variation") (Some "definitive") (Some "minute") (Some "minute")
           "MVH");
    reflexivity.
Defined.

(* ===================================================================== *)
(** ** Writing one trace: refusals, sample count, wire identity *)
(* ===================================================================== *)

Lemma interval_params_None (self : EdgeFactory) :
  ~ In (self_interval self) [Some "second"; Some "minute"] ->
  interval_params self = None.
Proof.
  intros H. unfold interval_params.
  destruct (self_interval self) as [s |]; simpl; [| reflexivity].
  destruct (String.eqb_spec s "second") as [-> | _];
    [exfalso; apply H; simpl; tauto |].
  destruct (String.eqb_spec s "minute") as [-> | _];
    [exfalso; apply H; simpl; tauto |].
  reflexivity.
Qed.

Lemma interval_params_Some (self : EdgeFactory) :
  In (self_interval self) [Some "second"; Some "minute"] ->
  exists N timeoffset samplerate,
    interval_params self = Some (N, timeoffset, samplerate)
    /\ 0 < N
    /\ In (self_interval self, N, timeoffset)
          [(Some "second", 3600, 1); (Some "minute", 1440, 60)].
Proof.
  unfold interval_params. simpl.
  intros [<- | [<- | []]]; simpl; eexists _, _, _;
    (split; [reflexivity | split; [reflexivity | simpl; tauto]]).
Qed.

(** X3. The window size comes from the factory's own interval, not from
    the interval of the call: on a factory whose interval is neither second
    nor minute, writing a trace whose channel and call interval the code
    mapper accepts raises [UnboundLocalError] for [nsamp] with nothing sent,
    also when the call itself asks for minute or second. *)
Theorem X3_put_trace_needs_factory_interval :
  forall (C : Collaborators) (self : EdgeFactory) (trace : Trace.t float)
         (observatory : option string) (channel : string)
         (type interval : option string),
    ~ In (self_interval self) [Some "second"; Some "minute"] ->
    is_ok (_get_edge_channel observatory channel type interval) = true ->
    _put_trace self trace observatory channel type interval
    = ([], Raise (UnboundLocalError "nsamp")).
Proof.
  intros C self trace observatory channel type interval Hself Hedge.
  unfold _put_trace.
  destruct (_get_edge_channel observatory channel type interval)
    as [edge_channel |]; [| discriminate Hedge].
  unfold lift. rewrite bind_Ok, (interval_params_None self Hself). reflexivity.
Qed.

Lemma X3_put_trace_needs_factory_interval_witness :
  _put_trace (C := Reference.collaborators) (Reference.factory None None)
             (Reference.trace_of "H" (seconds 0) (seconds 60) [1%float; 2%float])
             (Some "BOU") "H" (Some "variation") (Some "minute")
  = ([], Raise (UnboundLocalError "nsamp")).
Proof.
  apply (X3_put_trace_needs_factory_interval Reference.collaborators
           (Reference.factory None None)
           (Reference.trace_of "H" (seconds 0) (seconds 60) [1%float; 2%float])
           (Some "BOU") "H" (Some "variation") (Some "minute")).
  - simpl. intros [H | [H | []]]; discriminate H.
  - reflexivity.
Defined.

(** X4. A trace without samples cannot be written: with a factory interval
    of second or minute and a channel and interval the code mapper accepts,
    the window loop does not run, nothing is sent, and the final [forceout]
    raises [UnboundLocalError] for [seedname]. *)
Theorem X4_put_trace_empty_trace :
  forall (C : Collaborators) (self : EdgeFactory) (trace : Trace.t float)
         (observatory : option string) (channel : string)
         (type interval : option string),
    numpy.values (Trace.data trace) = [] ->
    In (self_interval self) [Some "second"; Some "minute"] ->
    is_ok (_get_edge_channel observatory channel type interval) = true ->
    _put_trace self trace observatory channel type interval
    = ([], Raise (UnboundLocalError "seedname")).
Proof.
  intros C self trace observatory channel type interval Hempty Hself Hedge.
  unfold _put_trace.
  destruct (_get_edge_channel observatory channel type interval)
    as [edge_channel |]; [| discriminate Hedge].
  unfold lift. rewrite bind_Ok.
  destruct (interval_params_Some self Hself)
    as (N & timeoffset & samplerate & -> & HN & _).
  unfold numpy.len. rewrite Hempty. simpl List.length.
  unfold xrange0.
  replace (Z.to_nat ((Z.of_nat 0 + N - 1) / N)) with 0%nat; [reflexivity |].
  assert ((Z.of_nat 0 + N - 1) / N < 1) by (apply Z.div_lt_upper_bound; lia).
  lia.
Qed.

Lemma X4_put_trace_empty_trace_witness :
  _put_trace (C := Reference.collaborators)
             (Reference.factory (Some "second") None)
             (Reference.trace_of "H" (seconds 0) (seconds 1) [])
             (Some "BOU") "H" (Some "variation") (Some "second")
  = ([], Raise (UnboundLocalError "seedname")).
Proof.
  apply (X4_put_trace_empty_trace Reference.collaborators
           (Reference.factory (Some "second") None)
           (Reference.trace_of "H" (seconds 0) (seconds 1) [])
           (Some "BOU") "H" (Some "variation") (Some "second")).
  - reflexivity.
  - simpl. tauto.
  - reflexivity.
Defined.




Lemma py_or_idem {A} (truthy : A -> bool) (a b : option A) :
  py_or truthy a (py_or truthy a b) = py_or truthy a b.
Proof.
  unfold py_or. destruct a as [v |]; [| reflexivity].
  destruct (truthy v); reflexivity.
Qed.

Lemma wire_seednames_app (l1 l2 : list Event) :
  wire_seednames (l1 ++ l2) = wire_seednames l1 ++ wire_seednames l2.
Proof. unfold wire_seednames. apply flat_map_app. Qed.

Lemma wire_seednames_Forall (sn : SeedName) (l : list Event) :
  Forall (fun ev => is_send ev = true /\ wire_seednames [ev] = [sn]) l ->
  Forall (eq sn) (wire_seednames l) /\ Forall (fun ev => is_send ev = true) l.
Proof.
  induction 1 as [| ev l [Hs Hev] _ [IH1 IH2]]; [split; constructor |].
  split; [| constructor; assumption].
  change (ev :: l) with ([ev] ++ l). rewrite wire_seednames_app, Hev.
  constructor; [reflexivity | exact IH1].
Qed.

Section WireIdentity.
Context {C : Collaborators}.
Variable self : EdgeFactory.
Variable trace : Trace.t float.
Variable station : option string.
Variables edge_channel network : string.
Variables totalsamps timeoffset : Z.
Variable samplerate : float.
Variable location0 : option string.

(** Across the passes of the window loop the location settles at
    [self.locationCode or location] and the seed name with it. *)
Lemma _put_trace_window_identity (i : Z) (locals : Locals) :
  py_or truthy_str (self_locationCode self) (l_location locals)
  = py_or truthy_str (self_locationCode self) location0
  /\ (forall sn, l_seedname locals = Some sn ->
                 sn = create_seedname station edge_channel
                        (py_or truthy_str (self_locationCode self) location0)
                        network) ->
  Forall (fun ev =>
            is_send ev = true
            /\ wire_seednames [ev]
               = [create_seedname station edge_channel
                    (py_or truthy_str (self_locationCode self) location0)
                    network])
         (log (_put_trace_window self trace station edge_channel network
                                 totalsamps timeoffset samplerate i locals))
  /\ forall locals',
      result (_put_trace_window self trace station edge_channel network
                                totalsamps timeoffset samplerate i locals)
      = Ok locals' ->
      py_or truthy_str (self_locationCode self) (l_location locals')
      = py_or truthy_str (self_locationCode self) location0
      /\ (forall sn, l_seedname locals' = Some sn ->
                     sn = create_seedname station edge_channel
                            (py_or truthy_str (self_locationCode self) location0)
                            network).
Proof.
  intros [Hloc _]. unfold _put_trace_window. rewrite Hloc.
  rewrite log_bind, result_bind, ric_call_log. split.
  - apply Forall_app. split.
    + constructor; [split; reflexivity | constructor].
    + destruct (result (ric_call _)); constructor.
  - intros locals'. destruct (result (ric_call _)); [| discriminate].
    intros E. injection E as <-. simpl. split; [apply py_or_idem |].
    intros sn E. injection E as <-. reflexivity.
Qed.

End WireIdentity.

(** X6. One trace goes out under one wire identity. When the code mapper
    accepts the channel and interval, every [send] and the [forceout] of
    [_put_trace] carry the same seed name: station the observatory, the
    channel code, network NT, and as location [self.locationCode or] the
    code [_get_edge_location] gave; this holds also when the transport
    fails part-way. A write that returns normally sent at least one window
    and ended with exactly one [forceout], its last call. *)
Theorem X6_put_trace_single_wire_identity :
  forall (C : Collaborators) (self : EdgeFactory) (trace : Trace.t float)
         (observatory : option string) (channel : string)
         (type interval : option string) (edge_channel : string),
    _get_edge_channel observatory channel type interval = Ok edge_channel ->
    Forall (eq (create_seedname observatory edge_channel
                  (py_or truthy_str (self_locationCode self)
                         (_get_edge_location self observatory channel type
                                             interval))
                  "NT"))
           (wire_seednames
              (log (_put_trace self trace observatory channel type interval)))
    /\ (result (_put_trace self trace observatory channel type interval) = Ok tt ->
        exists sends,
          sends <> []
          /\ Forall (fun ev => is_send ev = true) sends
          /\ log (_put_trace self trace observatory channel type interval)
             = sends
               ++ [ric_forceout
                     (create_seedname observatory edge_channel
                        (py_or truthy_str (self_locationCode self)
                               (_get_edge_location self observatory channel type
                                                   interval))
                        "NT")]).
Proof.
  intros C self trace observatory channel type interval edge_channel Hedge.
  unfold _put_trace. rewrite Hedge. unfold lift. rewrite bind_Ok.
  unfold log at 1 3, result at 1. simpl fst. simpl snd.
  destruct (interval_params self) as [[[nsamp timeoffset] samplerate] |];
    [| split; [constructor | discriminate]].
  unfold _get_edge_station, _get_edge_network.
  set (loc0 := _get_edge_location self observatory channel type interval).
  set (sn := create_seedname observatory edge_channel
               (py_or truthy_str (self_locationCode self) loc0) "NT").
  set (xs := xrange0 (numpy.len (Trace.data trace)) nsamp).
  set (st0 := mkLocals nsamp (Stats.starttime (Trace.stats trace)) loc0 None).
  destruct (for_each_invariant _ _ _
              (_put_trace_window_identity self trace observatory edge_channel "NT"
                 (numpy.len (Trace.data trace)) timeoffset samplerate loc0)
              xs st0) as [Hlog Hfinal].
  { split; [reflexivity | discriminate]. }
  fold sn in Hlog, Hfinal.
  destruct (wire_seednames_Forall sn _ Hlog) as [Hsn Hsend].
  assert (Hne : forall final,
             result (for_each xs
                       (_put_trace_window self trace observatory edge_channel "NT"
                          (numpy.len (Trace.data trace)) timeoffset samplerate)
                       st0) = Ok final ->
             l_seedname final <> None ->
             log (for_each xs
                    (_put_trace_window self trace observatory edge_channel "NT"
                       (numpy.len (Trace.data trace)) timeoffset samplerate)
                    st0) <> []).
  { intros final. destruct xs as [| x xs'].
    - simpl. intros E. injection E as <-. intros H. exfalso. apply H. reflexivity.
    - intros _ _. simpl for_each. rewrite log_bind.
      unfold _put_trace_window at 1. rewrite log_bind, ric_call_log.
      discriminate. }
  rewrite log_bind, result_bind.
  destruct (result (for_each xs _ st0)) as [final |] eqn:Eres.
  - destruct (Hfinal final eq_refl) as [_ Hid].
    destruct (l_seedname final) as [s |] eqn:Es.
    + rewrite (Hid s eq_refl), ric_call_log. split.
      * rewrite wire_seednames_app. apply Forall_app. split; [exact Hsn |].
        repeat constructor.
      * intros _. eexists. split; [| split; [exact Hsend | reflexivity]].
        apply (Hne final eq_refl). rewrite Es. discriminate.
    + split; [| discriminate]. simpl. rewrite app_nil_r. exact Hsn.
  - split; [| discriminate]. rewrite app_nil_r. exact Hsn.
Qed.

Lemma X6_put_trace_single_wire_identity_witness :
  Forall (eq (mkSeedName (Some "BOU") "MVH" (Some "D0") "NT"))
         (wire_seednames
            (log (_put_trace (C := Reference.collaborators)
                    (Reference.factory (Some "minute") None)
                    (Reference.trace_of "H" (seconds 0) (seconds 60)
                       (repeat 1%float (Z.to_nat 3000)))
                    (Some "BOU") "H" (Some "definitive") (Some "minute")))).
Proof.
  apply (X6_put_trace_single_wire_identity Reference.collaborators
           (Reference.factory (Some "minute") None)
           (Reference.trace_of "H" (seconds 0) (seconds 60)
              (repeat 1%float (Z.to_nat 3000)))
           (Some "BOU") "H" (Some "definitive") (Some "minute") "MVH").
  reflexivity.
Defined.

(* ===================================================================== *)
(** ** Masking: what the write path does to the caller's stream *)
(* ===================================================================== *)

Lemma combine_orb_idem (inv : list bool) :
  forall m : list bool,
    map (fun p : bool * bool => orb (fst p) (snd p))
        (combine inv (map (fun p : bool * bool => orb (fst p) (snd p))
                          (combine inv m)))
    = map (fun p : bool * bool => orb (fst p) (snd p)) (combine inv m).
Proof.
  induction inv as [| i inv IH]; intros m; [reflexivity |].
  destruct m as [| b m]; [reflexivity |].
  simpl. rewrite IH. f_equal. destruct i, b; reflexivity.
Qed.

Lemma combine_orb_self (inv : list bool) :
  map (fun p : bool * bool => orb (fst p) (snd p)) (combine inv inv) = inv.
Proof.
  induction inv as [| i inv IH]; [reflexivity |].
  simpl. rewrite IH. destruct i; reflexivity.
Qed.

Lemma masked_invalid_idem (a : numpy.ndarray float) :
  numpy.masked_invalid (numpy.masked_invalid a) = numpy.masked_invalid a.
Proof.
  destruct a as [vals [m |]]; unfold numpy.masked_invalid; simpl.
  - rewrite combine_orb_idem. reflexivity.
  - rewrite combine_orb_self. reflexivity.
Qed.

Lemma masked_invalid_values (a : numpy.ndarray float) :
  numpy.values (numpy.masked_invalid a) = numpy.values a
  /\ numpy.is_MaskedArray (numpy.masked_invalid a) = true.
Proof. destruct a as [vals [m |]]; split; reflexivity. Qed.

(** X8. [_convert_stream_to_masked] changes nothing but masks, and only on
    the traces of the channel: the stats and the sample values of every
    trace stay, traces of other channels stay as they are, the traces of
    the channel come out as masked arrays, and masking a second time
    changes nothing more. *)
Theorem X8_convert_stream_to_masked_only_masks :
  forall (C : Collaborators) (timeseries : Stream float) (channel : string),
    _convert_stream_to_masked (_convert_stream_to_masked timeseries channel)
                              channel
    = _convert_stream_to_masked timeseries channel
    /\ map Trace.stats (_convert_stream_to_masked timeseries channel)
       = map Trace.stats timeseries
    /\ map (fun trace => numpy.values (Trace.data trace))
           (_convert_stream_to_masked timeseries channel)
       = map (fun trace => numpy.values (Trace.data trace)) timeseries
    /\ filter (fun trace =>
                 negb (channel_matches channel (Stats.channel (Trace.stats trace))))
              (_convert_stream_to_masked timeseries channel)
       = filter (fun trace =>
                   negb (channel_matches channel
                                         (Stats.channel (Trace.stats trace))))
                timeseries
    /\ Forall (fun trace => numpy.is_MaskedArray (Trace.data trace) = true)
              (select (_convert_stream_to_masked timeseries channel) channel).
Proof.
  intros C timeseries channel. unfold _convert_stream_to_masked, select.
  induction timeseries as [| trace rest (IH1 & IH2 & IH3 & IH4 & IH5)]; simpl.
  - repeat split; constructor.
  - destruct (channel_matches channel (Stats.channel (Trace.stats trace))) eqn:E;
      simpl; rewrite E; simpl.
    + rewrite masked_invalid_idem, IH1, IH2, IH3, IH4.
      destruct (masked_invalid_values (Trace.data trace)) as [Hv Hm].
      rewrite Hv. repeat split. constructor; [exact Hm | exact IH5].
    + rewrite IH1, IH2, IH3, IH4. repeat split. exact IH5.
Qed.

Lemma _convert_stream_to_masked_keeps (C : Collaborators)
      (timeseries : Stream float) (channel : string) :
  map Trace.stats (_convert_stream_to_masked timeseries channel)
  = map Trace.stats timeseries
  /\ map (fun trace => numpy.values (Trace.data trace))
         (_convert_stream_to_masked timeseries channel)
     = map (fun trace => numpy.values (Trace.data trace)) timeseries.
Proof.
  unfold _convert_stream_to_masked.
  induction timeseries as [| trace rest [IH1 IH2]]; simpl; [split; reflexivity |].
  rewrite IH1, IH2.
  destruct (channel_matches channel (Stats.channel (Trace.stats trace)));
    [| split; reflexivity].
  simpl. destruct (masked_invalid_values (Trace.data trace)) as [-> _].
  split; reflexivity.
Qed.

Section PutKeepsSamples.
Context {C : Collaborators}.
Variable self : EdgeFactory.

Lemma put_timeseries_channel_keeps observatory type interval channel
      (timeseries timeseries' : Stream float) :
  result (put_timeseries_channel self observatory type interval channel
                                 timeseries) = Ok timeseries' ->
  timeseries' = timeseries
  \/ timeseries' = _convert_stream_to_masked timeseries channel.
Proof.
  unfold put_timeseries_channel.
  destruct (List.length (select timeseries channel) =? 0)%nat.
  - simpl. intros E. injection E as <-. left. reflexivity.
  - rewrite result_bind.
    destruct (result (for_each _ _ tt)); [| discriminate].
    simpl. intros E. injection E as <-. right. reflexivity.
Qed.

End PutKeepsSamples.

(** X7. A call of [put_timeseries] that returns normally leaves the
    caller's stream with the same traces in the same order, each with the
    stats and the sample values it had: all the call changes in the stream
    are masks. *)
Theorem X7_put_timeseries_keeps_stats_and_values :
  forall (C : Collaborators) (self : EdgeFactory)
         (timeseries timeseries' : Stream float)
         (observatory : option string) (channels : option (list string))
         (type interval : option string),
    result (put_timeseries self timeseries observatory channels type interval)
    = Ok timeseries' ->
    map Trace.stats timeseries' = map Trace.stats timeseries
    /\ map (fun trace => numpy.values (Trace.data trace)) timeseries'
       = map (fun trace => numpy.values (Trace.data trace)) timeseries.
Proof.
  intros C self timeseries timeseries' observatory channels type interval.
  unfold put_timeseries.
  destruct (py_or truthy_list channels (self_channels self)) as [l |];
    [| discriminate].
  unfold iter, emit. rewrite bind_Ok. unfold log, result; simpl fst; simpl snd.
  match goal with
  | |- context [for_each l ?body timeseries] =>
      destruct (for_each_invariant
                  (fun ts : Stream float =>
                     map Trace.stats ts = map Trace.stats timeseries
                     /\ map (fun trace => numpy.values (Trace.data trace)) ts
                        = map (fun trace => numpy.values (Trace.data trace))
                              timeseries)
                  (fun _ => True) body) with (xs := l) (s := timeseries)
        as [_ Hinv];
      [| split; reflexivity |
       destruct (for_each l body timeseries) as [L [ts | e]]]
  end.
  - intros channel ts [H1 H2]. split.
    + apply Forall_forall. intros; exact I.
    + intros ts' E.
      destruct (put_timeseries_channel_keeps self _ _ _ _ _ _ E) as [-> | ->];
        [split; assumption |].
      destruct (_convert_stream_to_masked_keeps C ts channel) as [F1 F2].
      rewrite F1, F2. split; assumption.
  - simpl. intros E. injection E as <-. apply Hinv. reflexivity.
  - simpl. discriminate.
Qed.

Lemma X7_put_timeseries_keeps_stats_and_values_witness :
  map (fun trace => numpy.values (Trace.data trace))
      (_convert_stream_to_masked (C := Reference.collaborators)
         [Reference.trace_of "H" (seconds 0) (seconds 1) [1%float; 2%float];
          Reference.trace_of "E" (seconds 0) (seconds 1) [3%float]]
         "H")
  = [[1%float; 2%float]; [3%float]].
Proof.
  apply (X7_put_timeseries_keeps_stats_and_values Reference.collaborators
           (Reference.factory (Some "second") None)
           [Reference.trace_of "H" (seconds 0) (seconds 1) [1%float; 2%float];
            Reference.trace_of "E" (seconds 0) (seconds 1) [3%float]]
           (_convert_stream_to_masked (C := Reference.collaborators)
              [Reference.trace_of "H" (seconds 0) (seconds 1) [1%float; 2%float];
               Reference.trace_of "E" (seconds 0) (seconds 1) [3%float]]
              "H")
           None (Some ["H"]) None None).
  reflexivity.
Defined.

(* ===================================================================== *)
(** ** Reading: the queries a call issues *)
(* ===================================================================== *)

Lemma queries_app (l1 l2 : list Event) :
  queries (l1 ++ l2) = queries l1 ++ queries l2.
Proof. unfold queries. apply flat_map_app. Qed.

Section ReadQueries.
Context {C : Collaborators}.
Variable self : EdgeFactory.
Variables starttime endtime : Time.
Variable observatory : option string.
Variables type interval : option string.

Lemma _get_timeseries_queries (channel : string) :
  Forall (fun ev => is_getWaveform ev = true)
         (log (_get_timeseries self starttime endtime observatory channel type
                               interval))
  /\ (is_ok (_get_edge_channel observatory channel type interval) = false ->
      log (_get_timeseries self starttime endtime observatory channel type
                           interval) = []
      /\ is_ok (result (_get_timeseries self starttime endtime observatory channel
                                        type interval)) = false)
  /\ (is_ok (_get_edge_channel observatory channel type interval) = true ->
      exists q,
        queries (log (_get_timeseries self starttime endtime observatory channel
                                      type interval)) = [q]
        /\ asked self starttime endtime observatory type interval channel q).
Proof.
  unfold _get_timeseries.
  destruct (_get_edge_channel observatory channel type interval)
    as [edge_channel | e] eqn:E.
  - unfold _get_edge_station, _get_edge_network. simpl.
    destruct (getWaveform "NT" observatory
                (_get_edge_location self observatory channel type interval)
                edge_channel starttime endtime) as [data | e'];
      [destruct (merge data) |]; simpl.
    all: split; [constructor; [reflexivity | constructor] |].
    all: split; [discriminate |]; intros _.
    all: eexists; split; [reflexivity |].
    all: exists edge_channel; split; [exact E | reflexivity].
  - simpl. split; [constructor |]. split; [intros _; split; reflexivity |].
    discriminate.
Qed.

Lemma get_timeseries_loop_queries :
  forall (channels : list string) (timeseries : Stream Z),
    exists k : nat,
      (k <= List.length channels)%nat
      /\ Forall2 (asked self starttime endtime observatory type interval)
                 (firstn k channels)
                 (queries
                    (log (for_each channels
                            (fun channel timeseries =>
                               bind (_get_timeseries self starttime endtime
                                       observatory channel type interval)
                                    (fun data => ret (timeseries ++ data)))
                            timeseries)))
      /\ Forall (fun ev => is_getWaveform ev = true)
                (log (for_each channels
                        (fun channel timeseries =>
                           bind (_get_timeseries self starttime endtime
                                   observatory channel type interval)
                                (fun data => ret (timeseries ++ data)))
                        timeseries))
      /\ (is_ok (result (for_each channels
                           (fun channel timeseries =>
                              bind (_get_timeseries self starttime endtime
                                      observatory channel type interval)
                                   (fun data => ret (timeseries ++ data)))
                           timeseries)) = true ->
          k = List.length channels).
Proof.
  induction channels as [| channel channels IH]; intros timeseries.
  - exists 0%nat. simpl. repeat split; constructor.
  - simpl for_each.
    destruct (_get_timeseries_queries channel) as (Hev & Hbad & Hgood).
    rewrite log_bind, result_bind. rewrite log_bind, result_bind.
    destruct (_get_timeseries self starttime endtime observatory channel type
                              interval) as [L [data | e]] eqn:Eg;
      unfold log, result in *; simpl fst in *; simpl snd in *.
    + rewrite app_nil_r.
      destruct (is_ok (_get_edge_channel observatory channel type interval)) eqn:Eok;
        [| destruct (Hbad eq_refl) as [_ Hf]; discriminate Hf].
      destruct (Hgood eq_refl) as (q & Hq & Hasked).
      destruct (IH (timeseries ++ data)) as (k & Hk & Hall & Hevs & Hok).
      exists (S k). split; [simpl; lia |].
      split; [| split].
      * simpl firstn. rewrite queries_app, Hq. simpl.
        constructor; [exact Hasked | exact Hall].
      * apply Forall_app. split; [exact Hev | exact Hevs].
      * intros H. simpl. f_equal. apply Hok, H.
    + rewrite !app_nil_r.
      destruct (is_ok (_get_edge_channel observatory channel type interval)) eqn:Eok.
      * destruct (Hgood eq_refl) as (q & Hq & Hasked).
        exists 1%nat. split; [simpl; lia |]. split; [| split].
        -- simpl firstn. rewrite Hq. repeat constructor. exact Hasked.
        -- exact Hev.
        -- discriminate.
      * destruct (Hbad eq_refl) as [HL _]. subst L.
        exists 0%nat. split; [lia |]. simpl. repeat split; try constructor.
        discriminate.
Qed.

End ReadQueries.

Lemma bind_ret {A B} (a : A) (k : A -> M B) : bind (ret a) k = k a.
Proof. unfold ret. rewrite bind_Ok. destruct (k a); reflexivity. Qed.

Lemma log_pair {A} (l : list Event) (r : Result A) : log (l, r) = l.
Proof. reflexivity. Qed.

Lemma result_pair {A} (l : list Event) (r : Result A) : result (l, r) = r.
Proof. reflexivity. Qed.

(** X9. A call of [get_timeseries] with [starttime <= endtime] talks to
    the read transport only through [getWaveform], once per requested
    channel and in the order requested, each query carrying network NT, the
    observatory as station, the location and channel code of the channel,
    and the requested start and end. The queries stop at the first channel
    that fails (no code, or the transport or the merge raising); a call that
    returns normally has queried every requested channel. *)
Theorem X9_get_timeseries_one_query_per_channel :
  forall (C : Collaborators) (self : EdgeFactory) (starttime endtime : Time)
         (observatory : option string) (channels : option (list string))
         (type interval : option string) (requested : list string),
    starttime <= endtime ->
    py_or truthy_list channels (self_channels self) = Some requested ->
    exists k : nat,
      (k <= List.length requested)%nat
      /\ Forall2 (asked self starttime endtime
                        (py_or truthy_str observatory (self_observatory self))
                        (py_or truthy_str type (self_type self))
                        (py_or truthy_str interval (self_interval self)))
                 (firstn k requested)
                 (queries (log (get_timeseries self starttime endtime observatory
                                               channels type interval)))
      /\ Forall (fun ev => is_getWaveform ev = true)
                (log (get_timeseries self starttime endtime observatory channels
                                     type interval))
      /\ (is_ok (result (get_timeseries self starttime endtime observatory
                                        channels type interval)) = true ->
          k = List.length requested).
Proof.
  intros C self starttime endtime observatory channels type interval requested
         Hrange Hreq.
  unfold get_timeseries.
  replace (starttime >? endtime) with false
    by (symmetry; rewrite Z.gtb_ltb; apply Z.ltb_ge; lia).
  rewrite Hreq. unfold iter. rewrite !bind_ret.
  destruct (get_timeseries_loop_queries self starttime endtime
              (py_or truthy_str observatory (self_observatory self))
              (py_or truthy_str type (self_type self))
              (py_or truthy_str interval (self_interval self))
              requested []) as (k & Hk & Hall & Hev & Hok).
  exists k. split; [exact Hk |].
  rewrite log_bind, result_bind.
  destruct (result (for_each requested _ [])) as [timeseries |];
    unfold lift; rewrite ?log_pair, ?result_pair, app_nil_r.
  - split; [exact Hall |]. split; [exact Hev |]. intros _. apply Hok. reflexivity.
  - split; [exact Hall |]. split; [exact Hev |]. discriminate.
Qed.

Lemma X9_get_timeseries_one_query_per_channel_witness :
  exists k : nat,
    (k <= 2)%nat
    /\ Forall2 (asked (Reference.factory (Some "minute") None)
                      (seconds 0) (seconds 600) (Some "BOU") (Some "variation")
                      (Some "minute"))
               (firstn k ["H"; "E"])
               (queries
                  (log (get_timeseries (C := Reference.collaborators)
                          (Reference.factory (Some "minute") None)
                          (seconds 0) (seconds 600) None (Some ["H"; "E"])
                          None None))).
Proof.
  destruct (X9_get_timeseries_one_query_per_channel Reference.collaborators
              (Reference.factory (Some "minute") None)
              (seconds 0) (seconds 600) None (Some ["H"; "E"]) None None
              ["H"; "E"]) as (k & Hk & Hall & _);
    [vm_compute; discriminate | reflexivity |].
  exists k. split; [exact Hk | exact Hall].
Defined.

(* ===================================================================== *)
(** ** Reading: what post-processing hands back *)
(* ===================================================================== *)

Lemma full_Ok_inv (cnt : Z) (v : float) (pad : list float) :
  numpy.full cnt v = Ok pad -> pad = repeat v (Z.to_nat cnt).
Proof.
  unfold numpy.full. destruct (cnt <? 0); [discriminate |].
  intros E. injection E as <-. reflexivity.
Qed.

Lemma mapR_Ok_inv {A B} (f : A -> Result B) :
  forall (l : list A) (out : list B),
    mapR f l = Ok out -> Forall2 (fun x y => f x = Ok y) l out.
Proof.
  induction l as [| x l IH]; intros out; simpl.
  - intros E. injection E as <-. constructor.
  - destruct (f x) as [y |] eqn:Ex; simpl; [| discriminate].
    destruct (mapR f l) as [ys |]; simpl; [| discriminate].
    intros E. injection E as <-. constructor; [exact Ex | apply IH; reflexivity].
Qed.

(** Whenever the gap reconciler returns, it has only added NaN samples
    around the samples it was given, and it hands back a plain array if it
    was given one. *)
Lemma _clean_timeseries_trace_Ok_inv (trace trace' : Trace.t float)
      (starttime endtime : Time) :
  _clean_timeseries_trace trace starttime endtime = Ok trace' ->
  (exists before after : nat,
      numpy.values (Trace.data trace')
      = repeat numpy.nan before ++ numpy.values (Trace.data trace)
        ++ repeat numpy.nan after)
  /\ Stats.channel (Trace.stats trace') = Stats.channel (Trace.stats trace)
  /\ Stats.delta (Trace.stats trace') = Stats.delta (Trace.stats trace)
  /\ (numpy.mask (Trace.data trace) = None ->
      numpy.mask (Trace.data trace') = None).
Proof.
  unfold _clean_timeseries_trace.
  destruct (Stats.starttime (Trace.stats trace) >? starttime).
  - destruct (int_div _ _) as [cnt |]; simpl; [| discriminate].
    destruct (numpy.full cnt numpy.nan) as [pad |] eqn:Ep; simpl; [| discriminate].
    apply full_Ok_inv in Ep. subst pad.
    destruct (Trace.endtime trace <? endtime).
    + destruct (int_div _ _) as [cnt2 |]; simpl; [| discriminate].
      destruct (numpy.full cnt2 numpy.nan) as [pad2 |] eqn:Ep2; simpl;
        [| discriminate].
      apply full_Ok_inv in Ep2. subst pad2.
      intros E. injection E as <-. simpl. split; [| repeat split].
      exists (Z.to_nat cnt), (Z.to_nat cnt2). rewrite <- app_assoc. reflexivity.
    + intros E. injection E as <-. simpl. split; [| repeat split].
      exists (Z.to_nat cnt), 0%nat. simpl. rewrite app_nil_r. reflexivity.
  - simpl. destruct (Trace.endtime trace <? endtime).
    + destruct (int_div _ _) as [cnt2 |]; simpl; [| discriminate].
      destruct (numpy.full cnt2 numpy.nan) as [pad2 |] eqn:Ep2; simpl;
        [| discriminate].
      apply full_Ok_inv in Ep2. subst pad2.
      intros E. injection E as <-. simpl. split; [| repeat split].
      exists 0%nat, (Z.to_nat cnt2). reflexivity.
    + intros E. injection E as <-. split; [| repeat split].
      * exists 0%nat, 0%nat. simpl. rewrite app_nil_r. reflexivity.
      * intros H; exact H.
Qed.

(** X10. When [_post_process] returns, it returns one trace per trace it
    was given, in order, each a plain array (no mask is left): the samples
    of the given trace divided by 1000.0, with NaN where the given trace
    hid a sample, between a run of NaN before and a run of NaN after (the
    padding, possibly empty); channel and sample spacing are those of the
    given trace. *)
Theorem X10_post_process_decodes_unmasks_pads :
  forall (C : Collaborators) (timeseries : Stream Z) (out : Stream float)
         (starttime endtime : Time) (channels : list string),
    _post_process timeseries starttime endtime channels = Ok out ->
    Forall2 (fun (given : Trace.t Z) (got : Trace.t float) =>
               numpy.mask (Trace.data got) = None
               /\ (exists before after : nat,
                      numpy.values (Trace.data got)
                      = repeat numpy.nan before
                        ++ numpy.values
                             (numpy.filled (numpy.divide (Trace.data given) 1000)
                                           numpy.nan)
                        ++ repeat numpy.nan after)
               /\ Stats.channel (Trace.stats got)
                  = Stats.channel (Trace.stats given)
               /\ Stats.delta (Trace.stats got)
                  = Stats.delta (Trace.stats given))
            timeseries out.
Proof.
  intros C timeseries out starttime endtime channels.
  unfold _post_process, _clean_timeseries, _convert_trace_to_decimal.
  rewrite map_map. intros H. apply mapR_Ok_inv in H.
  revert out H. induction timeseries as [| given rest IH]; intros out H.
  - inversion H. constructor.
  - simpl in H. inversion H as [| x got l out' Hclean Hrest]; subst.
    constructor; [| apply IH; exact Hrest].
    apply _clean_timeseries_trace_Ok_inv in Hclean.
    destruct Hclean as (Hvals & Hch & Hd & Hmask).
    unfold numpy.is_MaskedArray in *. simpl in *.
    destruct (numpy.mask (Trace.data given)) as [m |] eqn:Em.
    + simpl in *.
      split; [apply Hmask; unfold numpy.filled; simpl; rewrite Em; reflexivity |].
      split; [exact Hvals | split; assumption].
    + simpl in *. split; [apply Hmask; exact Em |].
      split; [| split; assumption].
      unfold numpy.filled. simpl. rewrite Em. exact Hvals.
Qed.

Lemma X10_post_process_decodes_unmasks_pads_witness :
  Forall2 (fun (given : Trace.t Z) (got : Trace.t float) =>
             numpy.mask (Trace.data got) = None
             /\ (exists before after : nat,
                    numpy.values (Trace.data got)
                    = repeat numpy.nan before
                      ++ numpy.values
                           (numpy.filled (numpy.divide (Trace.data given) 1000)
                                         numpy.nan)
                      ++ repeat numpy.nan after)
             /\ Stats.channel (Trace.stats got)
                = Stats.channel (Trace.stats given)
             /\ Stats.delta (Trace.stats got)
                = Stats.delta (Trace.stats given))
          [Trace.mk (Stats.mk "H" (seconds 60) (seconds 60) None [])
                    (numpy.mk_ndarray [20000; 0; 20500]
                                      (Some [false; true; false]))]
          [Trace.mk (Stats.mk "H" (seconds 0) (seconds 60) None [])
                    (numpy.array [numpy.nan; 20%float; numpy.nan; 20.5%float])].
Proof.
  apply (X10_post_process_decodes_unmasks_pads Reference.collaborators
           [Trace.mk (Stats.mk "H" (seconds 60) (seconds 60) None [])
                     (numpy.mk_ndarray [20000; 0; 20500]
                                       (Some [false; true; false]))]
           [Trace.mk (Stats.mk "H" (seconds 0) (seconds 60) None [])
                     (numpy.array [numpy.nan; 20%float; numpy.nan; 20.5%float])]
           (seconds 0) (seconds 180) ["H"]).
  vm_compute. reflexivity.
Defined.



(* ===================================================================== *)
(** ** Writing: the warnings of a call *)
(* ===================================================================== *)

Lemma select_length_stats {A B} (C : Collaborators) (channel : string) :
  forall (a : Stream A) (b : Stream B),
    map Trace.stats a = map Trace.stats b ->
    List.length (select a channel) = List.length (select b channel).
Proof.
  unfold select.
  induction a as [| x a IH]; intros [| y b] H; try discriminate H; [reflexivity |].
  simpl in H. injection H as Hx Hrest. simpl. rewrite Hx.
  destruct (channel_matches channel (Stats.channel (Trace.stats y))); simpl;
    [f_equal |]; apply IH, Hrest.
Qed.

Lemma filter_stderr_on_the_wire (l : list Event) :
  Forall on_the_wire l -> filter is_stderr l = [].
Proof.
  induction 1 as [| ev l Hev _ IH]; [reflexivity |].
  simpl. rewrite IH. destruct ev; destruct Hev as [H | H]; try discriminate H;
    reflexivity.
Qed.

Section Warnings.
Context {C : Collaborators}.
Variable self : EdgeFactory.
Variable observatory : option string.
Variables type interval : option string.
Variable timeseries : Stream float.

Lemma put_timeseries_loop_warnings :
  forall (channels : list string) (current : Stream float),
    map Trace.stats current = map Trace.stats timeseries ->
    is_ok (result (for_each channels
                     (put_timeseries_channel self observatory type interval)
                     current)) = true ->
    filter is_stderr
           (log (for_each channels
                   (put_timeseries_channel self observatory type interval)
                   current))
    = map missing_channel_warning
          (filter (fun channel =>
                     (List.length (select timeseries channel) =? 0)%nat)
                  channels).
Proof.
  induction channels as [| channel channels IH]; intros current Hstats;
    [reflexivity |].
  simpl for_each. rewrite log_bind, result_bind, filter_app. cbn [filter].
  rewrite <- (select_length_stats C channel current timeseries Hstats).
  destruct (List.length (select current channel) =? 0)%nat eqn:Eabs.
  - assert (Ebody : put_timeseries_channel self observatory type interval channel
                                           current
                    = ([missing_channel_warning channel], Ok current)).
    { unfold put_timeseries_channel. rewrite Eabs. reflexivity. }
    rewrite Ebody, log_pair, result_pair. intros Hok.
    rewrite (IH current Hstats Hok). reflexivity.
  - assert (Ebody : put_timeseries_channel self observatory type interval channel
                                           current
                    = bind (for_each
                              (flat_map split
                                 (select (_convert_stream_to_masked current channel)
                                         channel))
                              (fun trace (_ : unit) =>
                                 _put_trace self trace observatory channel type
                                            interval) tt)
                           (fun _ => ret (_convert_stream_to_masked current
                                                                    channel))).
    { unfold put_timeseries_channel. rewrite Eabs. reflexivity. }
    rewrite Ebody, log_bind, result_bind.
    assert (Hwire : Forall on_the_wire
                      (log (for_each
                              (flat_map split
                                 (select (_convert_stream_to_masked current channel)
                                         channel))
                              (fun trace (_ : unit) =>
                                 _put_trace self trace observatory channel type
                                            interval) tt))).
    { apply for_each_log_Forall. intros trace _. apply _put_trace_log. }
    destruct (result (for_each _ _ tt)) as [[] |]; [| discriminate].
    unfold ret at 1 2 3. rewrite log_pair, result_pair. intros Hok.
    rewrite app_nil_r, (filter_stderr_on_the_wire _ Hwire).
    simpl. apply IH; [| exact Hok].
    destruct (_convert_stream_to_masked_keeps C current channel) as [-> _].
    exact Hstats.
Qed.

End Warnings.

(** X12. A call of [put_timeseries] that returns normally has written to
    stderr exactly one warning for each requested channel the given stream
    has no trace of, in the order requested, and nothing for the channels
    it has: a channel is either written or reported, never both. *)
Theorem X12_put_timeseries_warns_once_per_absent_channel :
  forall (C : Collaborators) (self : EdgeFactory) (timeseries : Stream float)
         (observatory : option string) (channels : option (list string))
         (type interval : option string) (requested : list string),
    py_or truthy_list channels (self_channels self) = Some requested ->
    is_ok (result (put_timeseries self timeseries observatory channels type
                                  interval)) = true ->
    filter is_stderr
           (log (put_timeseries self timeseries observatory channels type
                                interval))
    = map missing_channel_warning
          (filter (fun channel =>
                     (List.length (select timeseries channel) =? 0)%nat)
                  requested).
Proof.
  intros C self timeseries observatory channels type interval requested Hreq.
  unfold put_timeseries. rewrite Hreq. unfold iter, emit.
  rewrite bind_Ok, !log_pair, !result_pair, !bind_ret.
  rewrite log_bind, result_bind.
  pose proof (put_timeseries_loop_warnings self
                (py_or truthy_str observatory (self_observatory self))
                (py_or truthy_str type (self_type self))
                (py_or truthy_str interval (self_interval self))
                timeseries requested timeseries eq_refl) as Hloop.
  destruct (result (for_each requested _ timeseries)) as [ts |]; [| discriminate].
  intros _. simpl. rewrite filter_app, (Hloop eq_refl). simpl.
  apply app_nil_r.
Qed.

Lemma X12_put_timeseries_warns_once_per_absent_channel_witness :
  filter is_stderr
         (log (put_timeseries (C := Reference.collaborators)
                 (Reference.factory (Some "second") None)
                 [Reference.trace_of "H" (seconds 0) (seconds 1)
                    [1%float; 2%float]]
                 None (Some ["E"; "H"; "Z"]) None None))
  = [missing_channel_warning "E"; missing_channel_warning "Z"].
Proof.
  apply (X12_put_timeseries_warns_once_per_absent_channel
           Reference.collaborators (Reference.factory (Some "second") None)
           [Reference.trace_of "H" (seconds 0) (seconds 1) [1%float; 2%float]]
           None (Some ["E"; "H"; "Z"]) None None ["E"; "H"; "Z"]);
    reflexivity.
Defined.

(* ===================================================================== *)
(** ** Writing: a failing transport ends the call *)
(* ===================================================================== *)

Lemma app_eq_cons_split {A} (l1 l2 before after : list A) (x : A) :
  l1 ++ l2 = before ++ x :: after ->
  (exists after1, l1 = before ++ x :: after1 /\ after = after1 ++ l2)
  \/ (exists before2, l2 = before2 ++ x :: after /\ before = l1 ++ before2).
Proof.
  revert before. induction l1 as [| y l1 IH]; intros before H.
  - right. exists before. split; [exact H | reflexivity].
  - destruct before as [| b before]; simpl in H; injection H as -> H.
    + left. exists l1. split; [reflexivity | symmetry; exact H].
    + destruct (IH before H) as [(a1 & -> & ->) | (b2 & -> & ->)].
      * left. exists a1. split; reflexivity.
      * right. exists b2. split; reflexivity.
Qed.

Section StopsAtFault.
Context {C : Collaborators}.
Variable self : EdgeFactory.

Lemma stops_at_fault_quiet {A} (l : list Event) (r : Result A) :
  Forall (fun ev => is_send ev || is_forceout ev = false) l ->
  stops_at_fault (l, r).
Proof.
  intros Hq before after ev e Hlog Hwire _. exfalso.
  rewrite log_pair in Hlog. rewrite Hlog in Hq.
  apply Forall_app in Hq. destruct Hq as [_ Hq]. inversion Hq as [| ? ? Hev _].
  rewrite Hev in Hwire. discriminate Hwire.
Qed.

Lemma stops_at_fault_ric_call (ev : Event) : stops_at_fault (ric_call ev).
Proof.
  intros before after ev' e Hlog _ Hfault.
  rewrite ric_call_log in Hlog.
  destruct before as [| b before]; simpl in Hlog.
  - injection Hlog as <- <-. split; [reflexivity |].
    unfold ric_call. rewrite Hfault. reflexivity.
  - injection Hlog as _ Hlog. destruct before; discriminate Hlog.
Qed.

Lemma stops_at_fault_bind {A B} (m : M A) (k : A -> M B) :
  stops_at_fault m -> (forall a, stops_at_fault (k a)) ->
  stops_at_fault (bind m k).
Proof.
  intros Hm Hk before after ev e Hlog Hwire Hfault.
  rewrite log_bind in Hlog. rewrite result_bind.
  apply app_eq_cons_split in Hlog.
  destruct Hlog as [(after1 & Hl & ->) | (before2 & Hl & ->)].
  - destruct (Hm before after1 ev e Hl Hwire Hfault) as [-> Hr].
    rewrite Hr. split; reflexivity.
  - destruct (result m) as [a |].
    + apply (Hk a before2 after ev e Hl Hwire Hfault).
    + destruct before2; discriminate Hl.
Qed.

Lemma stops_at_fault_for_each {A S} (body : A -> S -> M S) :
  (forall x s, stops_at_fault (body x s)) ->
  forall xs s, stops_at_fault (for_each xs body s).
Proof.
  intros Hbody xs. induction xs as [| x xs IH]; intros s; simpl.
  - apply stops_at_fault_quiet. constructor.
  - apply stops_at_fault_bind; [apply Hbody | exact IH].
Qed.

Lemma stops_at_fault__put_trace trace observatory channel type interval :
  stops_at_fault (_put_trace self trace observatory channel type interval).
Proof.
  unfold _put_trace. apply stops_at_fault_bind.
  - apply stops_at_fault_quiet. constructor.
  - intros edge_channel.
    destruct (interval_params self) as [[[nsamp timeoffset] samplerate] |];
      [| apply stops_at_fault_quiet; constructor].
    apply stops_at_fault_bind.
    + apply stops_at_fault_for_each. intros i locals.
      unfold _put_trace_window. apply stops_at_fault_bind.
      * apply stops_at_fault_ric_call.
      * intros _. apply stops_at_fault_quiet. constructor.
    + intros final. destruct (l_seedname final);
        [apply stops_at_fault_ric_call | apply stops_at_fault_quiet; constructor].
Qed.

Lemma stops_at_fault_put_timeseries_channel observatory type interval channel
      timeseries :
  stops_at_fault (put_timeseries_channel self observatory type interval channel
                                         timeseries).
Proof.
  unfold put_timeseries_channel.
  destruct (List.length (select timeseries channel) =? 0)%nat.
  - apply stops_at_fault_quiet. repeat constructor.
  - apply stops_at_fault_bind.
    + apply stops_at_fault_for_each. intros trace _.
      apply stops_at_fault__put_trace.
    + intros _. apply stops_at_fault_quiet. constructor.
Qed.

End StopsAtFault.

(** X13. A failure of the write transport ends the call where it happens.
    In every call of [put_timeseries], a [send] or [forceout] that the
    transport fails is the last call the factory makes: no further window
    is sent, nothing is flushed, the session is not closed, and the call
    raises the transport's error unchanged. *)
Theorem X13_put_timeseries_stops_at_transport_failure :
  forall (C : Collaborators) (self : EdgeFactory) (timeseries : Stream float)
         (observatory : option string) (channels : option (list string))
         (type interval : option string)
         (before after : list Event) (ev : Event) (e : exn),
    log (put_timeseries self timeseries observatory channels type interval)
    = before ++ ev :: after ->
    is_send ev || is_forceout ev = true ->
    ric_fault ev = Some e ->
    after = []
    /\ result (put_timeseries self timeseries observatory channels type interval)
       = Raise e.
Proof.
  intros C self timeseries observatory channels type interval.
  change (stops_at_fault
            (put_timeseries self timeseries observatory channels type interval)).
  unfold put_timeseries. apply stops_at_fault_bind.
  - apply stops_at_fault_quiet. repeat constructor.
  - intros _. apply stops_at_fault_bind.
    + destruct (py_or truthy_list channels (self_channels self));
        apply stops_at_fault_quiet; constructor.
    + intros l. apply stops_at_fault_bind.
      * apply stops_at_fault_for_each. intros channel ts.
        apply stops_at_fault_put_timeseries_channel.
      * intros ts. apply stops_at_fault_bind.
        -- apply stops_at_fault_quiet. repeat constructor.
        -- intros _. apply stops_at_fault_quiet. constructor.
Qed.

Lemma X13_put_timeseries_stops_at_transport_failure_witness :
  result (put_timeseries (C := failing_transport)
            (Reference.factory (Some "second") None)
            [Reference.trace_of "H" (seconds 0) (seconds 1) [1%float; 2%float]]
            None (Some ["H"; "E"]) None None)
  = Raise (CollaboratorError "connection lost").
Proof.
  apply (X13_put_timeseries_stops_at_transport_failure failing_transport
           (Reference.factory (Some "second") None)
           [Reference.trace_of "H" (seconds 0) (seconds 1) [1%float; 2%float]]
           None (Some ["H"; "E"]) None None
           [RawInputClient_init "GeomagAlg" None None "" 0] []
           (ric_send (mkSeedName (Some "BOU") "SVH" (Some "R0") "NT") 2
                     [1000; 2000] (seconds 0) 1%float 0 0 0 0)
           (CollaboratorError "connection lost"));
    reflexivity.
Defined.
